(** * SEC-MCP: financial statement normalisation and valuation metrics

    A shallow embedding of
      - [src/src/financial_data_client.py]
        ([FinancialDataClient._extract_concept], [_filter_by_period]) and
      - [src/FinancialMCPs/shared/financial_analysis.py]
        ([FinancialMetrics.calculate_altman_z_score],
         [calculate_piotroski_f_score], [DCFModel.calculate_terminal_value],
         [calculate_dcf_value], [monte_carlo_dcf]),
    and, in the continuation of Part I, of the rest of the two files: the
    three statement methods, the ratios, [ComparativeAnalysis],
    [TechnicalIndicators], [MarketRegimeDetection] and [ResearchQuality]
    ([sector_rotation_analysis], which rests on [np.polyfit] and [np.std],
    is not embedded).

    Conventions of the embedding.
      - A Python [dict] that is only looked up by key is a [gmap]; a [dict]
        whose iteration order is observed ([units.items()],
        [list(units.keys())[0]], [data.items()]) is an association list in
        insertion order.
      - [d.get(k)] is an [option]; [d.get(k, dflt)] is [default dflt].
      - Python numbers are exact rationals [Q]: comparisons, guards and the
        arithmetic formulas are those of the source, rounding of binary
        floating point is not modelled.  The properties proved of numbers
        are therefore those that rounding to nearest keeps: the formulas as
        they are computed, signs, orders against a threshold, lengths; and
        a result is promised only where no float operation leaves the range
        of a double (see [DCFModel.discounted_sum]).  An operation that can
        raise returns a [Py.result].
      - Python [str] is [string]; [<] on [str] is the lexicographic order
        [String.leb] (UTF-8 byte order agrees with code-point order).
      - The fields of the facts document have the JSON types of the SEC
        company-facts API: strings for dates, forms and accession ids,
        numbers for values.
      - [list.sort], [np.percentile] and [np.median] are library code: they
        are modelled by what they compute (the stable sort of the list, the
        linear-interpolation percentile and the median of the sorted
        array).  The square root inside [statistics.stdev] is not rational:
        it is a parameter of the functions that call it, and nothing is
        assumed of it. *)

From Stdlib Require Import ZArith QArith Qround Qpower Qabs Lqa Lia Bool.
From Stdlib Require Import String Ascii List Sorted Permutation.
From stdpp Require Import base option gmap strings.

Import ListNotations.
Local Open Scope string_scope.
Local Open Scope list_scope.

(** * Part I: the embedding *)

(** ** Python strings *)

Module PyStr.

(** [s.endswith(suffix)]. *)
Definition endswith (s suffix : string) : bool :=
  let n := String.length s in
  let m := String.length suffix in
  if (m <=? n)%nat then String.eqb (substring (n - m) m s) suffix else false.

(** [x in xs] for a list literal of strings. *)
Fixpoint in_list (x : string) (xs : list string) : bool :=
  match xs with
  | [] => false
  | y :: ys => if String.eqb x y then true else in_list x ys
  end.

End PyStr.

(** ** Python lists *)

Module PyList.

(** [l[:k]]: a negative stop counts from the end of the list. *)
Definition slice_to {A : Type} (l : list A) (k : Z) : list A :=
  if (0 <=? k)%Z then firstn (Z.to_nat k) l
  else firstn (List.length l - Z.to_nat (- k)) l.

Section StableSort.

Context {A : Type} (key : A -> string).

(** The place of [x] in a list that is already in descending key order, when
    [x] stood before all of its elements: after the elements with a strictly
    greater key, before those with an equal or smaller one. *)
Fixpoint insert_desc (x : A) (l : list A) : list A :=
  match l with
  | [] => [x]
  | y :: ys =>
      if String.leb (key y) (key x) then x :: y :: ys
      else y :: insert_desc x ys
  end.

(** [l.sort(key=key, reverse=True)]: Python's sort is stable, and with
    [reverse=True] elements with equal keys still keep their original
    order. *)
Fixpoint sort_desc (l : list A) : list A :=
  match l with
  | [] => []
  | x :: xs => insert_desc x (sort_desc xs)
  end.

(** [ge a b]: [a] may stand before [b] in descending key order. *)
Definition ge (a b : A) : Prop := String.leb (key b) (key a) = true.

(** The elements of [l] whose key is [k], in the order of [l]. *)
Definition with_key (k : string) (l : list A) : list A :=
  List.filter (fun x => String.eqb (key x) k) l.

(** Descending key order of adjacent elements. *)
Definition desc (l : list A) : Prop :=
  forall i a b, nth_error l i = Some a -> nth_error l (S i) = Some b ->
    String.leb (key b) (key a) = true.

End StableSort.

(** [d.get(k)] on a dict kept in insertion order. *)
Fixpoint alist_get {V : Type} (k : string) (d : list (string * V)) : option V :=
  match d with
  | [] => None
  | (k', v) :: rest => if String.eqb k' k then Some v else alist_get k rest
  end.

End PyList.

(** ** The facts document *)

(** A raw observation record of a unit sub-series, read only through
    [value.get(...)]: every field may be missing. *)
Module Raw.
Record t := mk {
  val   : option Q;
  end_  : option string;
  start : option string;
  form  : option string;
  filed : option string;
  accn  : option string
}.
End Raw.

(** A concept entry of the facts document: [{"description": .., "units":
    {label: [observations]}}]; [units] keeps insertion order. *)
Module Concept.
Record t := mk {
  description : option string;
  units       : option (list (string * list Raw.t))
}.

(** [not item_data] for a present entry: the empty dict is falsy. *)
Definition is_empty (c : t) : bool :=
  match description c, units c with
  | None, None => true
  | _, _ => false
  end.
End Concept.

(** One formatted observation of a line item. *)
Module Fmt.
Record t := mk {
  value      : option Q;
  end_date   : option string;
  start_date : option string;
  form       : option string;
  filed      : option string;
  accession  : option string
}.
End Fmt.

(** A normalized line item. *)
Module Line.
Record t := mk {
  description : string;
  unit        : string;
  values      : list Fmt.t
}.
End Line.

(** ** Concept resolver: [FinancialDataClient._extract_concept] *)

(** [for concept_name in concept_names: if concept_name in us_gaap: return
    us_gaap[concept_name]], and [return None] after the loop. *)
Fixpoint _extract_concept (us_gaap : gmap string Concept.t)
    (concept_names : list string) : option Concept.t :=
  match concept_names with
  | [] => None
  | concept_name :: rest =>
      match us_gaap !! concept_name with
      | Some c => Some c
      | None => _extract_concept us_gaap rest
      end
  end.

(** ** Period filter: [FinancialDataClient._filter_by_period] *)

(** The sort key [lambda x: x.get("end", "")]. *)
Definition end_key (value : Raw.t) : string := default "" (Raw.end_ value).

(** The same key read off a formatted observation ([end_date] is
    [value.get("end")]). *)
Definition end_date_key (v : Fmt.t) : string := default "" (Fmt.end_date v).

(** The loop [for unit, values in units.items(): if unit.endswith("USD") or
    unit == "shares": usd_data = values; break], entered with [usd_data]
    empty. *)
Fixpoint other_currency_units (units : list (string * list Raw.t)) : list Raw.t :=
  match units with
  | [] => []
  | (unit, values) :: rest =>
      if PyStr.endswith unit "USD" || String.eqb unit "shares" then values
      else other_currency_units rest
  end.

(** Lines 176-184: the unit sub-series the item is read from. *)
Definition select_usd_data (units : list (string * list Raw.t)) : list Raw.t :=
  match default [] (PyList.alist_get "USD" units) with
  | [] => other_currency_units units
  | usd_data => usd_data
  end.

(** Lines 191-199: the form filter. *)
Fixpoint filter_forms (period : string) (usd_data : list Raw.t) : list Raw.t :=
  match usd_data with
  | [] => []
  | value :: rest =>
      let form := default "" (Raw.form value) in
      if String.eqb period "annual" && PyStr.in_list form ["10-K"; "20-F"; "40-F"]
      then value :: filter_forms period rest
      else if String.eqb period "quarterly" && PyStr.in_list form ["10-Q"]
      then value :: filter_forms period rest
      else filter_forms period rest
  end.

(** The two form families of the filter. *)
Definition annual_form (v : Raw.t) : bool :=
  PyStr.in_list (default "" (Raw.form v)) ["10-K"; "20-F"; "40-F"].

Definition quarterly_form (v : Raw.t) : bool :=
  PyStr.in_list (default "" (Raw.form v)) ["10-Q"].

(** A unit label the loop of line 181 stops at. *)
Definition currency_like (unit : string) : bool :=
  PyStr.endswith unit "USD" || String.eqb unit "shares".

(** Lines 201-208: sort by end date, most recent first, and limit. *)
Definition sort_and_limit (period : string) (years : Z)
    (filtered_values : list Raw.t) : list Raw.t :=
  let filtered_values := PyList.sort_desc end_key filtered_values in
  if String.eqb period "annual" then PyList.slice_to filtered_values years
  else PyList.slice_to filtered_values (years * 4).

(** Lines 211-220. *)
Definition format_value (value : Raw.t) : Fmt.t :=
  {| Fmt.value := Raw.val value;
     Fmt.end_date := Raw.end_ value;
     Fmt.start_date := Raw.start value;
     Fmt.form := Raw.form value;
     Fmt.filed := Raw.filed value;
     Fmt.accession := Raw.accn value |}.

(** Lines 190-220 on the selected sub-series. *)
Definition normalize_values (period : string) (years : Z)
    (usd_data : list Raw.t) : list Fmt.t :=
  List.map format_value (sort_and_limit period years (filter_forms period usd_data)).

(** Line 224: ["USD" if "USD" in units else list(units.keys())[0] if units
    else "unknown"]. *)
Definition unit_label (units : list (string * list Raw.t)) : string :=
  match PyList.alist_get "USD" units with
  | Some _ => "USD"
  | None =>
      match units with
      | (unit, _) :: _ => unit
      | [] => "unknown"
      end
  end.

(** The body of the loop over [data.items()] for one entry; [None] is the
    [None] stored in [filtered_result]. *)
Definition filter_item (item_name : string) (item_data : option Concept.t)
    (period : string) (years : Z) : option Line.t :=
  match item_data with
  | None => None
  | Some item_data =>
      if Concept.is_empty item_data then None
      else
        let units := default [] (Concept.units item_data) in
        match select_usd_data units with
        | [] => None
        | usd_data =>
            Some {| Line.description :=
                      default item_name (Concept.description item_data);
                    Line.unit := unit_label units;
                    Line.values := normalize_values period years usd_data |}
        end
  end.

Definition _filter_by_period (data : list (string * option Concept.t))
    (period : string) (years : Z) : list (string * option Line.t) :=
  List.map (fun '(item_name, item_data) =>
              (item_name, filter_item item_name item_data period years)) data.

(** ** Python numbers and exceptions *)

Module Py.

(** The exceptions the embedded code can raise. *)
Inductive exn := IndexError | ZeroDivisionError | ValueError.

(** A computation that returns a value or raises. *)
Inductive result (A : Type) : Type :=
| Ret (a : A)
| Raise (e : exn).

Arguments Ret {A} a.
Arguments Raise {A} e.

#[global] Instance result_bind : MBind result := fun A B k m =>
  match m with
  | Ret a => k a
  | Raise e => Raise e
  end.

Local Open Scope Q_scope.

(** [a > b]. *)
Definition gt (a b : Q) : bool := negb (Qle_bool a b).

(** [a < b]. *)
Definition lt (a b : Q) : bool := negb (Qle_bool b a).

(** [a / b]: true division raises on a zero divisor. *)
Definition div (a b : Q) : result Q :=
  if Qeq_bool b 0 then Raise ZeroDivisionError else Ret (a / b).

(** [l[-1]]. *)
Definition last_item {A : Type} (l : list A) : result A :=
  match List.rev l with
  | [] => Raise IndexError
  | x :: _ => Ret x
  end.

End Py.

(** ** [FinancialMetrics] *)

Module FinancialMetrics.

Import Py.
Local Open Scope Q_scope.

(** Lines 47-74. *)
Definition calculate_altman_z_score
    (working_capital total_assets retained_earnings ebit
     market_value_equity total_liabilities sales : Q) : result (Q * string) :=
  if Qeq_bool total_assets 0 then Ret (0, "Cannot calculate - Invalid data")
  else
    A ← div working_capital total_assets;
    B ← div retained_earnings total_assets;
    C ← div ebit total_assets;
    D ← (if gt total_liabilities 0
          then div market_value_equity total_liabilities else Ret 0);
    E ← div sales total_assets;
    let z_score := 1.2 * A + 1.4 * B + 3.3 * C + 0.6 * D + 1.0 * E in
    let interpretation :=
      if gt z_score 2.99 then "Safe Zone - Low bankruptcy risk"
      else if gt z_score 1.81 then "Grey Zone - Moderate bankruptcy risk"
      else "Distress Zone - High bankruptcy risk" in
    Ret (z_score, interpretation).

(** The zone named at the head of an interpretation string. *)
Definition in_zone (zone interpretation : string) : Prop :=
  String.prefix zone interpretation = true.

(** One signal of the F-score: [if cond: criteria[name] = True; score += 1
    else: criteria[name] = False]. *)
Definition signal (name : string) (cond : bool)
    (st : gmap string bool * Z) : gmap string bool * Z :=
  if cond then (<[name := true]> (fst st), (snd st + 1)%Z)
  else (<[name := false]> (fst st), snd st).

(** Lines 77-151; [financials.get(k, 0)] reads a missing field as 0. *)
Definition calculate_piotroski_f_score (financials : gmap string Q)
    : Z * gmap string bool :=
  let get k := default 0 (financials !! k) in
  let st := (∅, 0%Z) in
  let st := signal "positive_roa" (gt (get "roa") 0) st in
  let st := signal "positive_ocf" (gt (get "operating_cash_flow") 0) st in
  let st := signal "increasing_roa" (gt (get "roa_change") 0) st in
  let st := signal "quality_earnings"
              (gt (get "operating_cash_flow") (get "net_income")) st in
  let st := signal "decreasing_leverage" (lt (get "leverage_change") 0) st in
  let st := signal "increasing_liquidity"
              (gt (get "current_ratio_change") 0) st in
  let st := signal "no_dilution" (Qle_bool (get "shares_change") 0) st in
  let st := signal "increasing_margin" (gt (get "gross_margin_change") 0) st in
  let st := signal "increasing_efficiency"
              (gt (get "asset_turnover_change") 0) st in
  (snd st, fst st).

End FinancialMetrics.

(** ** numpy's aggregations *)

Module Np.

Import Py.
Local Open Scope Q_scope.

(** A count as a rational. *)
Abbreviation Qn n := (inject_Z (Z.of_nat n)).

Fixpoint insert (x : Q) (l : list Q) : list Q :=
  match l with
  | [] => [x]
  | y :: ys => if Qle_bool x y then x :: y :: ys else y :: insert x ys
  end.

(** The array in ascending order. *)
Fixpoint sort (l : list Q) : list Q :=
  match l with
  | [] => []
  | x :: xs => insert x (sort xs)
  end.

Fixpoint sum (l : list Q) : Q :=
  match l with
  | [] => 0
  | x :: xs => x + sum xs
  end.

Definition size (a : list Q) : Q := inject_Z (Z.of_nat (List.length a)).

(** [np.mean(a)]; [None] stands for the [nan] of an empty array. *)
Definition mean (a : list Q) : option Q :=
  match a with
  | [] => None
  | _ => Some (sum a / size a)
  end.

(** [np.var(a)], the square of [np.std(a)]. *)
Definition var (a : list Q) : option Q :=
  match mean a with
  | None => None
  | Some m => mean (List.map (fun x => (x - m) * (x - m)) a)
  end.

(** Linear interpolation between two neighbours of the sorted array. *)
Definition lerp (lo hi gamma : Q) : Q := lo + (hi - lo) * gamma.

(** The sorted array [s] read at a fractional index, neighbours clipped to
    the last position. *)
Definition at_virtual_index (s : list Q) (virtual_index : Q) : Q :=
  let previous := Qfloor virtual_index in
  let gamma := virtual_index - inject_Z previous in
  let lo := Z.to_nat previous in
  let hi := Nat.min (lo + 1) (List.length s - 1) in
  lerp (nth lo s 0) (nth hi s 0) gamma.

(** [np.percentile(a, q)] with the default linear method: the virtual index
    of the quantile [q / 100] in the sorted array is [(n - 1) * q / 100].
    Unlike [np.mean] and [np.median], which give [nan] on an empty array,
    [np.percentile] reads position [-1] of the empty sorted array and raises
    [IndexError]. *)
Definition percentile (a : list Q) (q : Q) : result Q :=
  match a with
  | [] => Raise IndexError
  | _ =>
      let n := List.length a in
      Ret (at_virtual_index (sort a) (inject_Z (Z.of_nat (n - 1)) * (q / 100)))
  end.

(** [np.median(a)]: the middle element, or the mean of the two middle
    elements of an array of even length. *)
Definition median (a : list Q) : option Q :=
  match a with
  | [] => None
  | _ =>
      let s := sort a in
      let n := List.length a in
      if Nat.even n
      then Some ((nth (n / 2 - 1) s 0 + nth (n / 2) s 0) / 2)
      else Some (nth (n / 2) s 0)
  end.

End Np.

(** ** [DCFModel] *)

Module DCFModel.

Import Py.
Local Open Scope Q_scope.

(** Lines 160-173. *)
Definition calculate_wacc
    (market_cap total_debt cost_of_equity cost_of_debt tax_rate : Q)
    : result Q :=
  let total_value := market_cap + total_debt in
  if Qeq_bool total_value 0 then Ret 0.10
  else
    equity_weight ← div market_cap total_value;
    debt_weight ← div total_debt total_value;
    Ret (equity_weight * cost_of_equity +
         debt_weight * cost_of_debt * (1 - tax_rate)).

(** Lines 175-180. *)
Definition calculate_terminal_value (final_fcf terminal_growth wacc : Q)
    : result Q :=
  if Qle_bool wacc terminal_growth then Ret 0
  else div (final_fcf * (1 + terminal_growth)) (wacc - terminal_growth).

Record DCFResult := {
  intrinsic_value_per_share : Q;
  enterprise_value : Q;
  equity_value : Q;
  pv_fcfs : Q;
  pv_terminal : Q
}.

(** [sum(fcf / (1 + wacc) ** (i + 1) for i, fcf in enumerate(..))], from
    index [i] on with the partial sum [acc].

    The discount factor is the exact power.  On Python floats [**] leaves
    the exact power where it leaves the range of a double: above the largest
    double it raises [OverflowError], below the smallest it gives [0.0] and
    the division raises [ZeroDivisionError]; on the numpy floats that
    [monte_carlo_dcf] passes it gives [inf] or [0.0] and nothing raises.
    The statements below that promise a returned result are therefore kept
    to rates and horizons whose discount factors are far inside that range
    (see [DCFModelFacts.discount_factor_range]). *)
Fixpoint discounted_sum (wacc : Q) (i : nat) (fcfs : list Q) (acc : Q)
    : result Q :=
  match fcfs with
  | [] => Ret acc
  | fcf :: rest =>
      term ← div fcf ((1 + wacc) ^ Z.of_nat (i + 1));
      discounted_sum wacc (S i) rest (acc + term)
  end.

(** Lines 182-208. *)
Definition calculate_dcf_value (fcf_projections : list Q)
    (terminal_growth wacc net_debt shares_outstanding : Q)
    : result DCFResult :=
  pv_fcfs ← discounted_sum wacc 0 fcf_projections 0;
  terminal_fcf ← last_item fcf_projections;
  terminal_value ← calculate_terminal_value terminal_fcf terminal_growth wacc;
  pv_terminal ←
    div terminal_value ((1 + wacc) ^ Z.of_nat (List.length fcf_projections));
  let enterprise_value := pv_fcfs + pv_terminal in
  let equity_value := enterprise_value - net_debt in
  intrinsic_value_per_share ←
    (if gt shares_outstanding 0 then div equity_value shares_outstanding
     else Ret 0);
  Ret {| intrinsic_value_per_share := intrinsic_value_per_share;
         enterprise_value := enterprise_value;
         equity_value := equity_value;
         pv_fcfs := pv_fcfs;
         pv_terminal := pv_terminal |}.

(** The values [np.random] hands out during one call of [monte_carlo_dcf]:
    the three parameter arrays, indexed by simulation, and the additional
    volatility drawn for simulation [i] in year [t]. *)
Record RandomSource := {
  growth_rates : nat -> Q;
  terminal_growths : nat -> Q;
  waccs : nat -> Q;
  volatility : nat -> nat -> Q
}.

(** The inner loop of lines 224-229, from year [t] on. *)
Fixpoint project_fcfs (growth_rate : Q) (noise : nat -> Q)
    (num_years t : nat) (current_fcf : Q) : list Q :=
  match num_years with
  | O => []
  | S n =>
      let growth := growth_rate + noise t in
      let current_fcf := current_fcf * (1 + growth) in
      current_fcf :: project_fcfs growth_rate noise n (S t) current_fcf
  end.

(** The loop of lines 222-235, for [n] simulations from index [i] on. *)
Fixpoint simulate (rnd : RandomSource) (base_fcf : Q) (num_years : nat)
    (n i : nat) : result (list Q) :=
  match n with
  | O => Ret []
  | S n' =>
      let fcfs := project_fcfs (growth_rates rnd i) (volatility rnd i)
                    num_years 0 base_fcf in
      dcf_result ←
        calculate_dcf_value fcfs (terminal_growths rnd i) (waccs rnd i) 0 1;
      results ← simulate rnd base_fcf num_years n' (S i);
      Ret (intrinsic_value_per_share dcf_result :: results)
  end.

(** The dict of lines 237-244; [std_dev_squared] is the square of the
    source's [std_dev] (a square root is not rational).  Every entry is a
    numpy float, [None] standing for [nan]. *)
Record MonteCarloResult := {
  mean_value : option Q;
  median_value : option Q;
  std_dev_squared : option Q;
  percentile_5 : option Q;
  percentile_95 : option Q;
  confidence_interval : option Q * option Q
}.

(** Lines 210-244; [np.random.normal] refuses a negative size.  The dict is
    built entry by entry: the mean, the median and the standard deviation
    never raise, the four calls of [np.percentile] raise on an empty
    [results]. *)
Definition monte_carlo_dcf (rnd : RandomSource) (base_fcf : Q)
    (num_years simulations : Z) : result MonteCarloResult :=
  if (simulations <? 0)%Z then Raise ValueError
  else
    results ← simulate rnd base_fcf (Z.to_nat num_years)
                 (Z.to_nat simulations) 0;
    p5 ← Np.percentile results 5;
    p95 ← Np.percentile results 95;
    low ← Np.percentile results 5;
    high ← Np.percentile results 95;
    Ret {| mean_value := Np.mean results;
           median_value := Np.median results;
           std_dev_squared := Np.var results;
           percentile_5 := Some p5;
           percentile_95 := Some p95;
           confidence_interval := (Some low, Some high) |}.

(** Draws at the means of lines 218-219, a WACC that rises slowly from the
    mean of line 220, and no additional volatility. *)
Definition reference_draws : RandomSource :=
  {| growth_rates := fun _ => 0.05;
     terminal_growths := fun _ => 0.025;
     waccs := fun i => 0.10 + inject_Z (Z.of_nat i) * 0.00001;
     volatility := fun _ _ => 0 |}.

End DCFModel.

(** ** Sample facts *)

Module Sample.

Definition obs (v : Q) (e f fd a : string) : Raw.t :=
  {| Raw.val := Some v; Raw.end_ := Some e; Raw.start := None;
     Raw.form := Some f; Raw.filed := Some fd; Raw.accn := Some a |}.

(** Five annual observations and one quarterly one, oldest first. *)
Definition revenue_series : list Raw.t :=
  [ obs 100 "2019-12-31" "10-K" "2020-02-20" "0001-20-000001";
    obs 110 "2020-12-31" "10-K" "2021-02-19" "0001-21-000001";
    obs 121 "2021-12-31" "10-K" "2022-02-18" "0001-22-000001";
    obs 33  "2022-03-31" "10-Q" "2022-05-02" "0001-22-000002";
    obs 130 "2022-12-31" "10-K" "2023-02-17" "0001-23-000001";
    obs 140 "2023-12-31" "10-K" "2024-02-16" "0001-24-000001" ].

Definition revenues : Concept.t :=
  {| Concept.description := Some "Revenues";
     Concept.units := Some [("USD", revenue_series)] |}.

(** The [income_items] of a company that reports revenues only. *)
Definition income_items : list (string * option Concept.t) :=
  [("revenues", Some revenues); ("gross_profit", None)].

(** Two filings for the same period end: an original and a later
    amendment. *)
Definition original : Raw.t :=
  obs 140 "2023-12-31" "10-K" "2024-02-16" "0001-24-000001".
Definition amendment : Raw.t :=
  obs 141 "2023-12-31" "10-K" "2024-06-03" "0001-24-000009".
Definition previous : Raw.t :=
  obs 130 "2022-12-31" "10-K" "2023-02-17" "0001-23-000001".

(** A concept reported in euros only. *)
Definition euro_revenues : Concept.t :=
  {| Concept.description := Some "Revenues";
     Concept.units := Some [("EUR", revenue_series)] |}.

End Sample.

(** * Part I, continued: the rest of the two source files *)

(** ** Python sequences *)

Module PySeq.

Import Py.
Local Open Scope Q_scope.

(** [len(l)]. *)
Definition len {A : Type} (l : list A) : Z := Z.of_nat (List.length l).

(** The position a slice bound [k] denotes in a sequence of [n] elements:
    a negative bound counts from the end, and both kinds are clipped. *)
Definition bound (n k : Z) : nat :=
  Z.to_nat (if (k <? 0)%Z then Z.max (k + n) 0 else Z.min k n).

(** [l[a:]]. *)
Definition slice_from {A : Type} (l : list A) (a : Z) : list A :=
  skipn (bound (len l) a) l.

(** [l[i]]: a negative index counts from the end. *)
Definition index {A : Type} (l : list A) (i : Z) : result A :=
  let j := if (i <? 0)%Z then (i + len l)%Z else i in
  if (j <? 0)%Z then Raise IndexError
  else match nth_error l (Z.to_nat j) with
       | Some x => Ret x
       | None => Raise IndexError
       end.

(** [range(a, b)]. *)
Definition range (a b : Z) : list Z :=
  List.map (fun k => (a + Z.of_nat k)%Z) (seq 0 (Z.to_nat (b - a))).

(** [sum(l)]: the items are added to 0 from left to right. *)
Definition sum (l : list Q) : Q := fold_left Qplus l 0.

(** [[f - s for f, s in zip(fs, ss)]]. *)
Definition zip_sub (fs ss : list Q) : list Q :=
  List.map (fun fs => fst fs - snd fs) (combine fs ss).

(** [max(a, b)] and [min(a, b)]: the first argument wins a tie. *)
Definition max (a b : Q) : Q := if gt b a then b else a.
Definition min (a b : Q) : Q := if lt b a then b else a.

End PySeq.

(** ** [FinancialMetrics]: the ratios *)

Module FinancialRatios.

Import Py.
Local Open Scope Q_scope.

(** A ratio, or the sentinel [float('inf')]. *)
Inductive number := Fin (q : Q) | Inf.

(** Lines 21-24. *)
Definition calculate_roic (ebit tax_rate invested_capital : Q) : result Q :=
  let nopat := ebit * (1 - tax_rate) in
  if gt invested_capital 0 then div nopat invested_capital else Ret 0.

(** Lines 27-29. *)
Definition calculate_roce (ebit capital_employed : Q) : result Q :=
  if gt capital_employed 0 then div ebit capital_employed else Ret 0.

(** Lines 32-34. *)
Definition calculate_fcf_yield (fcf market_cap : Q) : result Q :=
  if gt market_cap 0 then div fcf market_cap else Ret 0.

(** Lines 37-39. *)
Definition calculate_ev_to_ebitda (enterprise_value ebitda : Q)
    : result number :=
  if gt ebitda 0 then q ← div enterprise_value ebitda; Ret (Fin q)
  else Ret Inf.

(** Lines 42-44. *)
Definition calculate_peg_ratio (pe_ratio growth_rate : Q) : result number :=
  if gt growth_rate 0 then q ← div pe_ratio growth_rate; Ret (Fin q)
  else Ret Inf.

End FinancialRatios.

(** ** [ComparativeAnalysis]: the two classifiers *)

Module ComparativeAnalysis.

Import Py.
Local Open Scope Q_scope.

(** Lines 287-298. *)
Definition _interpret_z_score (z_score : Q) : string :=
  if gt z_score 2 then "Significantly above peers"
  else if gt z_score 1 then "Above peers"
  else if gt z_score (-1) then "In line with peers"
  else if gt z_score (-2) then "Below peers"
  else "Significantly below peers".

(** Lines 338-347. *)
Definition _get_rotation_signal (short_momentum long_momentum : Q) : string :=
  if gt short_momentum long_momentum && gt short_momentum 0
  then "Bullish - Accelerating"
  else if gt short_momentum long_momentum && lt short_momentum 0
  then "Recovery - Improving"
  else if lt short_momentum long_momentum && gt long_momentum 0
  then "Caution - Decelerating"
  else "Bearish - Deteriorating".

End ComparativeAnalysis.

(** ** [ComparativeAnalysis.calculate_relative_metrics] *)

Module RelativeMetrics.

Import Py PySeq.
Local Open Scope Q_scope.

Record Relative := {
  company_value : Q;
  peer_mean : Q;
  peer_median : Q;
  percentile_rank : Q;
  z_score : Q;
  interpretation : string
}.

(** [[p.get(metric, 0) for p in peer_metrics if metric in p]]. *)
Definition peer_values_of (metric : string) (peer_metrics : list (gmap string Q))
    : list Q :=
  flat_map (fun p => match p !! metric with
                     | Some v => [v]
                     | None => []
                     end) peer_metrics.

(** [sum(1 for v in peer_values if v < company_value)]. *)
Definition below_count (peer_values : list Q) (company_value : Q) : Z :=
  len (List.filter (fun v => lt v company_value) peer_values).

(** [statistics.mean] of data that is not empty. *)
Definition mean (data : list Q) : Q := sum data / inject_Z (len data).

(** [statistics.median] of data that is not empty. *)
Definition median (data : list Q) : Q :=
  let s := Np.sort data in
  let n := List.length data in
  if Nat.even n then (nth (n / 2 - 1) s 0 + nth (n / 2) s 0) / 2
  else nth (n / 2) s 0.

(** The sample variance [statistics.stdev] takes the square root of, for
    at least two data points. *)
Definition variance (data : list Q) : Q :=
  let m := mean data in
  sum (List.map (fun x => (x - m) * (x - m)) data) / inject_Z (len data - 1).

Section WithSqrt.

(** The square root of the float arithmetic; no property of it is used. *)
Variable sqrt : Q -> Q.

(** Lines 264-282: the entry of one metric with peer values. *)
Definition relative_entry (company_value : Q) (peer_values : list Q)
    : result Relative :=
  ratio ← div (inject_Z (below_count peer_values company_value))
              (inject_Z (len peer_values));
  let percentile := ratio * 100 in
  let mean_val := mean peer_values in
  let std_val :=
    if (1 <? len peer_values)%Z then sqrt (variance peer_values) else 0 in
  z_score ← (if gt std_val 0 then div (company_value - mean_val) std_val
             else Ret 0);
  Ret {| company_value := company_value;
         peer_mean := mean_val;
         peer_median := median peer_values;
         percentile_rank := percentile;
         z_score := z_score;
         interpretation := ComparativeAnalysis._interpret_z_score z_score |}.

(** Lines 251-284; [company_metrics] in the order of the dict. *)
Fixpoint calculate_relative_metrics (company_metrics : list (string * Q))
    (peer_metrics : list (gmap string Q)) : result (list (string * Relative)) :=
  match company_metrics with
  | [] => Ret []
  | (metric, company_value) :: rest =>
      if PyStr.in_list metric ["ticker"; "company_name"]
      then calculate_relative_metrics rest peer_metrics
      else
        match peer_values_of metric peer_metrics with
        | [] => calculate_relative_metrics rest peer_metrics
        | peer_values =>
            entry ← relative_entry company_value peer_values;
            results ← calculate_relative_metrics rest peer_metrics;
            Ret ((metric, entry) :: results)
        end
  end.

End WithSqrt.

(** Whether a metric of the company gets an entry. *)
Definition compared (peer_metrics : list (gmap string Q)) (metric : string)
    : bool :=
  negb (PyStr.in_list metric ["ticker"; "company_name"]) &&
  match peer_values_of metric peer_metrics with
  | [] => false
  | _ => true
  end.

End RelativeMetrics.

(** ** [TechnicalIndicators] *)

Module TechnicalIndicators.

Import Py PySeq.
Local Open Scope Q_scope.

(** [prices[i] - prices[i-1]] for [i] in [range(1, len(prices))]. *)
Fixpoint changes (prices : list Q) : list Q :=
  match prices with
  | a :: ((b :: _) as rest) => (b - a) :: changes rest
  | _ => []
  end.

(** What one price change appends to [gains] and to [losses]. *)
Definition gain_of (change : Q) : Q := if gt change 0 then change else 0.
Definition loss_of (change : Q) : Q := if gt change 0 then 0 else Qabs change.

(** The loop of lines 375-386 over the indices [idx]. *)
Fixpoint rsi_loop (period : Z) (gains losses : list Q) (idx : list Z)
    (avg_gain avg_loss : Q) : result (list Q) :=
  match idx with
  | [] => Ret []
  | i :: rest =>
      rsi ← (if Qeq_bool avg_loss 0 then Ret 100
             else rs ← div avg_gain avg_loss;
                  t ← div 100 (1 + rs);
                  Ret (100 - t));
      gain ← index gains i;
      avg_gain ← div (avg_gain * inject_Z (period - 1) + gain) (inject_Z period);
      loss ← index losses i;
      avg_loss ← div (avg_loss * inject_Z (period - 1) + loss) (inject_Z period);
      rsi_values ← rsi_loop period gains losses rest avg_gain avg_loss;
      Ret (rsi :: rsi_values)
  end.

(** Lines 354-388. *)
Definition calculate_rsi (prices : list Q) (period : Z) : result (list Q) :=
  if (len prices <? period + 1)%Z then Ret []
  else
    let gains := List.map gain_of (changes prices) in
    let losses := List.map loss_of (changes prices) in
    avg_gain ← div (sum (PyList.slice_to gains period)) (inject_Z period);
    avg_loss ← div (sum (PyList.slice_to losses period)) (inject_Z period);
    rsi_loop period gains losses (range period (len gains)) avg_gain avg_loss.

(** The loop of lines 425-426; [previous] is [ema[-1]]. *)
Fixpoint ema_loop (multiplier previous : Q) (prices : list Q) : list Q :=
  match prices with
  | [] => []
  | price :: rest =>
      let next := (price - previous) * multiplier + previous in
      next :: ema_loop multiplier next rest
  end.

(** Lines 417-428. *)
Definition _calculate_ema (prices : list Q) (period : Z) : result (list Q) :=
  if (len prices <? period)%Z then Ret []
  else
    multiplier ← div 2 (inject_Z (period + 1));
    first ← div (sum (PyList.slice_to prices period)) (inject_Z period);
    Ret (first :: ema_loop multiplier first (slice_from prices period)).

Record MACD := {
  macd : list Q;
  signal : list Q;
  histogram : list Q
}.

(** Lines 391-414. *)
Definition calculate_macd (prices : list Q) (fast slow signal : Z)
    : result MACD :=
  if (len prices <? slow)%Z
  then Ret {| macd := []; signal := []; histogram := [] |}
  else
    ema_fast ← _calculate_ema prices fast;
    ema_slow ← _calculate_ema prices slow;
    let macd_line := zip_sub (slice_from ema_fast (slow - fast)) ema_slow in
    signal_line ← _calculate_ema macd_line signal;
    let histogram := zip_sub (slice_from macd_line (signal - 1)) signal_line in
    Ret {| macd := macd_line; signal := signal_line; histogram := histogram |}.

End TechnicalIndicators.

(** ** [TechnicalIndicators.calculate_bollinger_bands] *)

Module Bollinger.

Import PySeq.
Local Open Scope Q_scope.

(** The exceptions of this function: those of the built-in operations and
    the one [statistics.stdev] raises on fewer than two data points. *)
Inductive error := Builtin (e : Py.exn) | StatisticsError.

Inductive outcome (A : Type) : Type :=
| Ok (a : A)
| Fail (e : error).

Arguments Ok {A} a.
Arguments Fail {A} e.

#[global] Instance outcome_bind : MBind outcome := fun A B k m =>
  match m with
  | Ok a => k a
  | Fail e => Fail e
  end.

Definition lift {A : Type} (r : Py.result A) : outcome A :=
  match r with
  | Py.Ret a => Ok a
  | Py.Raise e => Fail (Builtin e)
  end.

(** [l[a:b]]. *)
Definition slice {A : Type} (l : list A) (a b : Z) : list A :=
  firstn (bound (len l) b - bound (len l) a) (skipn (bound (len l) a) l).

Record Bands := {
  upper : list Q;
  middle : list Q;
  lower : list Q
}.

Section WithSqrt.

(** The square root of the float arithmetic; no property of it is built
    in. *)
Variable sqrt : Q -> Q.

(** [statistics.stdev(data)]. *)
Definition stdev (data : list Q) : outcome Q :=
  if (len data <? 2)%Z then Fail StatisticsError
  else Ok (sqrt (RelativeMetrics.variance data)).

(** The loop of lines 441-448 over the indices [idx]. *)
Fixpoint bands_loop (prices : list Q) (period : Z) (std_dev : Q)
    (idx : list Z) : outcome Bands :=
  match idx with
  | [] => Ok {| upper := []; middle := []; lower := [] |}
  | i :: rest =>
      let window := slice prices (i - period + 1) (i + 1) in
      sma ← lift (Py.div (sum window) (inject_Z period));
      std ← stdev window;
      bands ← bands_loop prices period std_dev rest;
      Ok {| upper := (sma + std_dev * std) :: upper bands;
            middle := sma :: middle bands;
            lower := (sma - std_dev * std) :: lower bands |}
  end.

(** Lines 431-450. *)
Definition calculate_bollinger_bands (prices : list Q) (period : Z)
    (std_dev : Q) : outcome Bands :=
  if (len prices <? period)%Z
  then Ok {| upper := []; middle := []; lower := [] |}
  else bands_loop prices period std_dev (range (period - 1) (len prices)).

End WithSqrt.

End Bollinger.

(** ** [MarketRegimeDetection] *)

(** numpy scalars: [None] is [nan]; a comparison with [nan] is false and
    arithmetic on [nan] gives [nan]. *)
Module Nan.

Local Open Scope Q_scope.

Definition lift2 (f : Q -> Q -> Q) (a b : option Q) : option Q :=
  match a, b with
  | Some x, Some y => Some (f x y)
  | _, _ => None
  end.

Definition sub := lift2 Qminus.
Definition mul := lift2 Qmult.
Definition div := lift2 Qdiv.
Definition abs (a : option Q) : option Q := option_map Qabs a.

Definition gt (a b : option Q) : bool :=
  match a, b with
  | Some x, Some y => Py.gt x y
  | _, _ => false
  end.

Definition lt (a b : option Q) : bool := gt b a.

(** [a != 0]: true of [nan]. *)
Definition nonzero (a : option Q) : bool :=
  match a with
  | Some x => negb (Qeq_bool x 0)
  | None => true
  end.

End Nan.

Module MarketRegimeDetection.

Import PySeq.
Local Open Scope Q_scope.

Record Metrics := {
  return_change : option Q;
  volatility_change : option Q;
  volume_change : option Q
}.

Record Regime := {
  regime : string;
  confidence : Q;
  metrics : option Metrics
}.

(** Lines 474-491: the regime and its confidence before the volume
    confirmation. *)
Definition base_regime (recent_return recent_vol hist_return hist_vol
    : option Q) : string * Q :=
  if Nan.gt recent_return (Nan.mul hist_return (Some 1.2)) &&
     Nan.lt recent_vol (Nan.mul hist_vol (Some 1.2))
  then ("Bull Market - Low Volatility", 0.8)
  else if Nan.gt recent_return hist_return && Nan.gt recent_vol hist_vol
  then ("Bull Market - High Volatility", 0.7)
  else if Nan.lt recent_return (Nan.mul hist_return (Some 0.8)) &&
          Nan.gt recent_vol (Nan.mul hist_vol (Some 1.2))
  then ("Bear Market - High Volatility", 0.8)
  else if Nan.lt recent_return hist_return && Nan.lt recent_vol hist_vol
  then ("Bear Market - Low Volatility", 0.7)
  else if Nan.lt (Nan.abs recent_return) (Some 0.02) &&
          Nan.lt recent_vol hist_vol
  then ("Consolidation - Low Volatility", 0.6)
  else ("Transition - Mixed Signals", 0.5).

(** Lines 494-499: the volume confirmation. *)
Definition volume_confirmation (recent_volume hist_volume : option Q)
    (rc : string * Q) : string * Q :=
  if Nan.gt recent_volume (Nan.mul hist_volume (Some 1.3))
  then (String.append (fst rc) " (High Volume)", snd rc + 0.1)
  else if Nan.lt recent_volume (Nan.mul hist_volume (Some 0.7))
  then (String.append (fst rc) " (Low Volume)", snd rc - 0.1)
  else rc.

(** [(recent - hist) / denominator if hist != 0 else 0]. *)
Definition change (recent hist denominator : option Q) : option Q :=
  if Nan.nonzero hist then Nan.div (Nan.sub recent hist) denominator
  else Some 0.

(** Lines 457-509. *)
Definition detect_regime (returns volume volatility : list Q) : Regime :=
  if (len returns <? 20)%Z
  then {| regime := "Insufficient data"; confidence := 0; metrics := None |}
  else
    let recent_return := Np.mean (slice_from returns (-20)) in
    let recent_vol := Np.mean (slice_from volatility (-20)) in
    let recent_volume := Np.mean (slice_from volume (-20)) in
    let hist_return := Np.mean (PyList.slice_to returns (-20)) in
    let hist_vol := Np.mean (PyList.slice_to volatility (-20)) in
    let hist_volume := Np.mean (PyList.slice_to volume (-20)) in
    let rc := volume_confirmation recent_volume hist_volume
                (base_regime recent_return recent_vol hist_return hist_vol) in
    {| regime := fst rc;
       confidence := min (max (snd rc) 0) 1;
       metrics := Some {|
         return_change := change recent_return hist_return (Nan.abs hist_return);
         volatility_change := change recent_vol hist_vol hist_vol;
         volume_change := change recent_volume hist_volume hist_volume |} |}.

End MarketRegimeDetection.

(** ** [ResearchQuality] *)

Module ResearchQuality.

Import Py.
Local Open Scope Q_scope.

Record t := {
  data_completeness : Q;
  data_freshness : Q;
  source_reliability : Q;
  analysis_depth : Q
}.

(** Lines 522-526. *)
Definition overall_quality (self : t) : Q :=
  data_completeness self * 0.3 + data_freshness self * 0.2 +
  source_reliability self * 0.3 + analysis_depth self * 0.2.

(** Lines 530-541; [score >= c] is [c <= score]. *)
Definition quality_grade (self : t) : string :=
  let score := overall_quality self in
  if Qle_bool 0.9 score then "A+"
  else if Qle_bool 0.8 score then "A"
  else if Qle_bool 0.7 score then "B"
  else if Qle_bool 0.6 score then "C"
  else "D".

(** Lines 544-556. *)
Definition get_recommendations (self : t) : list string :=
  (if lt (data_completeness self) 0.8
   then ["Gather more comprehensive financial data"] else []) ++
  (if lt (data_freshness self) 0.8
   then ["Update to more recent data sources"] else []) ++
  (if lt (source_reliability self) 0.8
   then ["Use more authoritative data sources"] else []) ++
  (if lt (analysis_depth self) 0.8
   then ["Perform deeper quantitative analysis"] else []).

End ResearchQuality.

(** ** The three statements of [FinancialDataClient] *)

Module Statements.

(** The company facts document [edgar_client.get_company_facts(cik)]
    answers with; [us_gaap] is [facts.get("facts", {}).get("us-gaap", {})],
    [None] when either key is missing. *)
Record Facts := {
  entityName : option string;
  us_gaap : option (gmap string Concept.t)
}.

Record Statement := {
  company_name : string;
  cik : string;
  statement_type : string;
  period : string;
  data : list (string * option Line.t)
}.



Definition cash_flow_registry : list (string * list string) :=
  [ ("net_income", ["NetIncomeLoss"]);
    ("depreciation_amortization", ["DepreciationDepletionAndAmortization"]);
    ("stock_based_compensation", ["ShareBasedCompensation"]);
    ("change_in_working_capital", ["IncreaseDecreaseInOperatingCapital"]);
    ("operating_cash_flow", ["NetCashProvidedByUsedInOperatingActivities"]);
    ("capital_expenditures", ["PaymentsToAcquirePropertyPlantAndEquipment"]);
    ("acquisitions", ["PaymentsToAcquireBusinessesNetOfCashAcquired"]);
    ("investment_purchases", ["PaymentsToAcquireInvestments"]);
    ("investment_sales",
       ["ProceedsFromSaleMaturityAndCollectionsOfInvestments"]);
    ("investing_cash_flow", ["NetCashProvidedByUsedInInvestingActivities"]);
    ("debt_issuance", ["ProceedsFromIssuanceOfDebt";
       "ProceedsFromIssuanceOfLongTermDebt"]);
    ("debt_repayment", ["RepaymentsOfDebt"; "RepaymentsOfLongTermDebt"]);
    ("stock_issuance", ["ProceedsFromIssuanceOfCommonStock"]);
    ("stock_repurchase", ["PaymentsForRepurchaseOfCommonStock"]);
    ("dividends_paid", ["PaymentsOfDividends";
       "PaymentsOfDividendsCommonStock"]);
    ("financing_cash_flow", ["NetCashProvidedByUsedInFinancingActivities"]);
    ("net_change_in_cash", ["CashAndCashEquivalentsPeriodIncreaseDecrease"]);
    ("cash_beginning", ["CashAndCashEquivalentsAtCarryingValue"]);
    ("cash_ending", ["CashAndCashEquivalentsAtCarryingValue"]) ].

(** The items dict: every semantic name with the concept found for it. *)
Definition extract_items (us_gaap : gmap string Concept.t)
    (registry : list (string * list string))
    : list (string * option Concept.t) :=
  List.map (fun entry => (fst entry, _extract_concept us_gaap (snd entry)))
           registry.

(** The common body of the three [get_..._statement] methods, on the facts
    the client was answered with. *)
Definition get_statement (statement_type : string)
    (registry : list (string * list string))
    (facts : Facts) (cik period : string) (years : Z) : Statement :=
  let company_name := default "Unknown Company" (entityName facts) in
  let us_gaap := default ∅ (us_gaap facts) in
  let items := extract_items us_gaap registry in
  let filtered_data := _filter_by_period items period years in
  {| company_name := company_name;
     cik := cik;
     statement_type := statement_type;
     period := period;
     data := filtered_data |}.



(** Lines 106-157. *)
Definition get_cash_flow_statement :=
  get_statement "cash_flow_statement" cash_flow_registry.

(** [d[name]] on the [data] of a statement. *)
Definition line_item (s : Statement) (name : string) : option (option Line.t) :=
  PyList.alist_get name (data s).

End Statements.

(** * Part II: properties of the period filter *)

(** ** The order on strings *)

Module PyStrFacts.

Lemma in_list_In x xs : PyStr.in_list x xs = true <-> In x xs.
Proof.
  induction xs as [|y ys IH]; simpl.
  - split; [discriminate | tauto].
  - destruct (String.eqb_spec x y) as [->|Hne].
    + split; auto.
    + rewrite IH. split; [auto | intros [Heq|H]; congruence].
Qed.

Lemma compare_refl s : String.compare s s = Eq.
Proof.
  induction s as [|a s IH]; simpl; auto.
  unfold Ascii.compare. now rewrite N.compare_refl.
Qed.

Lemma leb_refl s : String.leb s s = true.
Proof. unfold String.leb. now rewrite compare_refl. Qed.

Lemma compare_trans_le s1 : forall s2 s3,
  String.compare s1 s2 <> Gt -> String.compare s2 s3 <> Gt ->
  String.compare s1 s3 <> Gt.
Proof.
  induction s1 as [|a s1 IH]; intros [|b s2] [|c s3]; simpl; try congruence.
  destruct (Ascii.compare a b) eqn:Hab; try congruence;
    destruct (Ascii.compare b c) eqn:Hbc; try congruence.
  - apply Ascii.compare_eq_iff in Hab, Hbc. subst.
    unfold Ascii.compare. rewrite N.compare_refl. apply IH.
  - apply Ascii.compare_eq_iff in Hab. subst. rewrite Hbc. congruence.
  - apply Ascii.compare_eq_iff in Hbc. subst. rewrite Hab. congruence.
  - intros _ _.
    assert (Hac : Ascii.compare a c = Lt).
    { unfold Ascii.compare in *. rewrite N.compare_lt_iff in *.
      eapply N.lt_trans; eauto. }
    rewrite Hac. congruence.
Qed.

Lemma leb_trans s1 s2 s3 :
  String.leb s1 s2 = true -> String.leb s2 s3 = true -> String.leb s1 s3 = true.
Proof.
  unfold String.leb. intros H12 H23.
  pose proof (compare_trans_le s1 s2 s3) as H.
  destruct (String.compare s1 s2); try discriminate;
    destruct (String.compare s2 s3); try discriminate;
    destruct (String.compare s1 s3); auto; exfalso; apply H; congruence.
Qed.

Lemma leb_false_flip s1 s2 : String.leb s1 s2 = false -> String.leb s2 s1 = true.
Proof.
  intros H. destruct (String.leb_total s1 s2) as [H'|H']; congruence.
Qed.

Lemma leb_false_neq s1 s2 : String.leb s1 s2 = false -> s1 <> s2.
Proof. intros H ->. rewrite leb_refl in H. discriminate. Qed.

End PyStrFacts.

(** ** The stable descending sort *)

Module PyListFacts.

Import PyList.

Section StableSort.

Context {A : Type} (key : A -> string).

Local Abbreviation ge := (PyList.ge key).

Lemma ge_trans a b c : ge a b -> ge b c -> ge a c.
Proof. unfold ge. intros Hab Hbc. eapply PyStrFacts.leb_trans; eauto. Qed.

Lemma insert_desc_perm x l : Permutation (insert_desc key x l) (x :: l).
Proof.
  induction l as [|y ys IH]; simpl; auto.
  destruct (String.leb (key y) (key x)); auto.
  rewrite IH. apply perm_swap.
Qed.

Lemma sort_desc_perm l : Permutation (sort_desc key l) l.
Proof.
  induction l as [|x xs IH]; simpl; auto.
  rewrite insert_desc_perm. now constructor.
Qed.

Lemma insert_desc_HdRel z x l :
  ge z x -> HdRel ge z l -> HdRel ge z (insert_desc key x l).
Proof.
  intros Hzx Hz. destruct l as [|y ys]; simpl.
  - now constructor.
  - destruct (String.leb (key y) (key x)); constructor; auto.
    now inversion Hz.
Qed.

Lemma insert_desc_Sorted x l :
  Sorted ge l -> Sorted ge (insert_desc key x l).
Proof.
  induction 1 as [|y ys Hs IH Hhd]; simpl.
  - repeat constructor.
  - destruct (String.leb (key y) (key x)) eqn:Hyx.
    + repeat constructor; auto.
    + constructor; auto.
      apply insert_desc_HdRel; auto.
      apply PyStrFacts.leb_false_flip, Hyx.
Qed.

Lemma sort_desc_Sorted l : Sorted ge (sort_desc key l).
Proof.
  induction l as [|x xs IH]; simpl; [constructor|].
  now apply insert_desc_Sorted.
Qed.

Lemma sort_desc_StronglySorted l : StronglySorted ge (sort_desc key l).
Proof.
  apply Sorted_StronglySorted; [|apply sort_desc_Sorted].
  intros a b c. apply ge_trans.
Qed.

Lemma In_firstn n (l : list A) x : In x (firstn n l) -> In x l.
Proof.
  intros H. rewrite <- (firstn_skipn n l). apply in_or_app. now left.
Qed.

Lemma StronglySorted_firstn n : forall l,
  StronglySorted ge l -> StronglySorted ge (firstn n l).
Proof.
  induction n as [|n IH]; intros l Hl; simpl; [constructor|].
  destruct l as [|x xs]; [constructor|].
  inversion Hl as [|? ? Hxs Hx]; subst. constructor; auto.
  rewrite List.Forall_forall in *. intros y Hy.
  apply Hx. revert Hy. apply In_firstn.
Qed.

Lemma StronglySorted_slice_to l k :
  StronglySorted ge l -> StronglySorted ge (slice_to l k).
Proof.
  intros Hl. unfold slice_to.
  destruct (0 <=? k)%Z; now apply StronglySorted_firstn.
Qed.

Lemma StronglySorted_desc l : StronglySorted ge l -> desc key l.
Proof.
  induction 1 as [|x xs Hs IH Hall]; intros i a b Ha Hb.
  - destruct i; discriminate.
  - destruct i as [|i]; simpl in *.
    + injection Ha as <-. rewrite List.Forall_forall in Hall.
      apply Hall. destruct xs; [discriminate|].
      simpl in Hb. injection Hb as <-. now left.
    + eapply IH; eauto.
Qed.

(** Stability: elements with the same key keep their order. *)
Lemma with_key_insert_desc k x l :
  with_key key k (insert_desc key x l) = with_key key k (x :: l).
Proof.
  induction l as [|y ys IH]; auto.
  simpl. destruct (String.leb (key y) (key x)) eqn:Hyx; auto.
  apply PyStrFacts.leb_false_neq in Hyx.
  unfold with_key in *. simpl in *. rewrite IH.
  destruct (String.eqb_spec (key y) k), (String.eqb_spec (key x) k);
    auto; congruence.
Qed.

Lemma with_key_sort_desc k l :
  with_key key k (sort_desc key l) = with_key key k l.
Proof.
  induction l as [|x xs IH]; auto.
  simpl. rewrite with_key_insert_desc.
  unfold with_key in *. simpl. now rewrite IH.
Qed.

Lemma with_key_In k x l : In x (with_key key k l) <-> In x l /\ key x = k.
Proof.
  unfold with_key. rewrite filter_In, String.eqb_eq. tauto.
Qed.

(** A list in descending key order is determined by its classes of equal
    keys. *)
Lemma StronglySorted_with_key_eq l1 : forall l2,
  StronglySorted ge l1 -> StronglySorted ge l2 ->
  (forall k, with_key key k l1 = with_key key k l2) -> l1 = l2.
Proof.
  induction l1 as [|x xs IH]; intros l2 H1 H2 Hk.
  - destruct l2 as [|y ys]; auto.
    specialize (Hk (key y)). unfold with_key in Hk. simpl in Hk.
    rewrite String.eqb_refl in Hk. discriminate.
  - destruct l2 as [|y ys].
    { specialize (Hk (key x)). unfold with_key in Hk. simpl in Hk.
      rewrite String.eqb_refl in Hk. discriminate. }
    inversion H1 as [|? ? Hxs Hx]; subst.
    inversion H2 as [|? ? Hys Hy]; subst.
    rewrite List.Forall_forall in Hx, Hy.
    assert (Hxy : key x = key y).
    { apply String.leb_antisym.
      - assert (Hin : In x (y :: ys)).
        { apply (with_key_In (key x)). rewrite <- Hk.
          apply with_key_In. split; [now left | reflexivity]. }
        destruct Hin as [->|Hin]; [apply PyStrFacts.leb_refl | now apply Hy].
      - assert (Hin : In y (x :: xs)).
        { apply (with_key_In (key y)). rewrite Hk.
          apply with_key_In. split; [now left | reflexivity]. }
        destruct Hin as [->|Hin]; [apply PyStrFacts.leb_refl | now apply Hx]. }
    assert (x = y) as ->.
    { specialize (Hk (key x)). unfold with_key in Hk. simpl in Hk.
      rewrite <- Hxy, String.eqb_refl in Hk. congruence. }
    f_equal. apply IH; auto.
    intros k. specialize (Hk k). unfold with_key in *. simpl in Hk.
    destruct (String.eqb (key y) k); congruence.
Qed.

Lemma sort_desc_with_key_eq l1 l2 :
  (forall k, with_key key k l1 = with_key key k l2) ->
  sort_desc key l1 = sort_desc key l2.
Proof.
  intros Hk. apply StronglySorted_with_key_eq;
    try apply sort_desc_StronglySorted.
  intros k. now rewrite !with_key_sort_desc.
Qed.

(** A stable descending sort is unique: whatever algorithm [l.sort] runs,
    its result is [sort_desc]. *)
Lemma stable_sort_unique l l' :
  StronglySorted ge l' ->
  (forall k, with_key key k l' = with_key key k l) ->
  l' = sort_desc key l.
Proof.
  intros Hs Hk. apply StronglySorted_with_key_eq; auto.
  - apply sort_desc_StronglySorted.
  - intros k. now rewrite with_key_sort_desc.
Qed.

Lemma length_slice_to (l : list A) k :
  (0 <= k)%Z -> (Z.of_nat (List.length (slice_to l k)) <= k)%Z.
Proof.
  intros Hk. unfold slice_to.
  destruct (0 <=? k)%Z eqn:E; [|lia].
  rewrite length_firstn. lia.
Qed.

Lemma slice_to_incl (l : list A) k x : In x (slice_to l k) -> In x l.
Proof.
  unfold slice_to. destruct (0 <=? k)%Z; apply In_firstn.
Qed.

End StableSort.

End PyListFacts.


(** ** Concept resolver *)

(** C1. For every facts collection and every ordered list of candidate tag
    names, [_extract_concept] returns the concept data of the first candidate
    that is present in the collection, whatever comes after it in the list,
    and returns absence exactly when no candidate is present. *)
Theorem extract_concept_first_present
    (us_gaap : gmap string Concept.t) (concept_names : list string) :
  (forall c, _extract_concept us_gaap concept_names = Some c <->
     exists before name after,
       concept_names = before ++ name :: after /\
       Forall (fun n => us_gaap !! n = None) before /\
       us_gaap !! name = Some c) /\
  (_extract_concept us_gaap concept_names = None <->
     Forall (fun n => us_gaap !! n = None) concept_names).
Proof.
  induction concept_names as [|n ns [IHsome IHnone]]; split.
  - intros c; split; [discriminate|].
    intros (before & name & after & Heq & _). destruct before; discriminate.
  - split; auto.
  - intros c; simpl. destruct (us_gaap !! n) as [c'|] eqn:Hn; split.
    + intros [= ->]. exists [], n, ns. auto.
    + intros (before & name & after & Heq & Hbefore & Hname).
      destruct before as [|b before]; simpl in Heq; injection Heq as -> ->.
      * congruence.
      * inversion Hbefore; congruence.
    + intros H. apply IHsome in H as (before & name & after & -> & Hb & Hname).
      exists (n :: before), name, after. auto.
    + intros (before & name & after & Heq & Hbefore & Hname).
      destruct before as [|b before]; simpl in Heq; injection Heq as -> ->.
      * congruence.
      * apply IHsome. exists before, name, after.
        inversion Hbefore; auto.
  - simpl. destruct (us_gaap !! n) as [c'|] eqn:Hn; split.
    + discriminate.
    + intros H. inversion H; congruence.
    + intros H. constructor; auto. now apply IHnone.
    + intros H. apply IHnone. now inversion H.
Qed.

(** ** Form filter *)

Lemma filter_forms_annual usd_data :
  filter_forms "annual" usd_data = List.filter annual_form usd_data.
Proof.
  induction usd_data as [|v vs IH]; [reflexivity|].
  cbn [filter_forms List.filter]. rewrite IH. unfold annual_form.
  change (String.eqb "annual" "annual") with true. cbn [andb].
  now destruct (PyStr.in_list _ _).
Qed.

Lemma filter_forms_quarterly usd_data :
  filter_forms "quarterly" usd_data = List.filter quarterly_form usd_data.
Proof.
  induction usd_data as [|v vs IH]; [reflexivity|].
  cbn [filter_forms List.filter]. rewrite IH. unfold quarterly_form.
  change (String.eqb "quarterly" "annual") with false.
  change (String.eqb "quarterly" "quarterly") with true. cbn [andb].
  now destruct (PyStr.in_list _ _).
Qed.

Lemma filter_forms_other period usd_data :
  period <> "annual" -> period <> "quarterly" ->
  filter_forms period usd_data = [].
Proof.
  intros Ha Hq. apply String.eqb_neq in Ha, Hq.
  induction usd_data as [|v vs IH]; auto.
  simpl. now rewrite Ha, Hq.
Qed.

Lemma normalize_values_In period years usd_data v :
  In v (normalize_values period years usd_data) ->
  exists raw, v = format_value raw /\ In raw (filter_forms period usd_data).
Proof.
  unfold normalize_values, sort_and_limit. rewrite in_map_iff.
  intros (raw & <- & Hin). exists raw. split; auto.
  eapply Permutation_in; [apply (PyListFacts.sort_desc_perm end_key)|].
  destruct (String.eqb period "annual");
    eapply PyListFacts.slice_to_incl; eauto.
Qed.

(** C3. With period kind annual the form filter keeps exactly the
    observations whose form is 10-K, 20-F or 40-F, with period kind quarterly
    exactly those whose form is 10-Q; every observation of an annual result
    has one of the three annual forms, so never 10-Q, and every observation of
    a quarterly result has form 10-Q, so never 10-K. *)
Theorem filter_forms_family (usd_data : list Raw.t) :
  filter_forms "annual" usd_data =
    List.filter (fun v => PyStr.in_list (default "" (Raw.form v))
                            ["10-K"; "20-F"; "40-F"]) usd_data /\
  filter_forms "quarterly" usd_data =
    List.filter (fun v => String.eqb (default "" (Raw.form v)) "10-Q") usd_data /\
  (forall v, In v (filter_forms "annual" usd_data) <->
     In v usd_data /\ In (Raw.form v) [Some "10-K"; Some "20-F"; Some "40-F"]) /\
  (forall v, In v (filter_forms "quarterly" usd_data) <->
     In v usd_data /\ Raw.form v = Some "10-Q") /\
  (forall years v, In v (normalize_values "annual" years usd_data) ->
     In (Fmt.form v) [Some "10-K"; Some "20-F"; Some "40-F"] /\
     Fmt.form v <> Some "10-Q") /\
  (forall years v, In v (normalize_values "quarterly" years usd_data) ->
     Fmt.form v = Some "10-Q" /\ Fmt.form v <> Some "10-K").
Proof.
  assert (Hann : forall v, annual_form v = true <->
            In (Raw.form v) [Some "10-K"; Some "20-F"; Some "40-F"]).
  { intros v. unfold annual_form. rewrite PyStrFacts.in_list_In.
    destruct (Raw.form v) as [f|]; simpl.
    - split; intros H; repeat destruct H as [H|H]; try tauto;
        try (injection H as H); subst; auto.
    - split; intros H; repeat destruct H as [H|H]; try tauto; discriminate. }
  assert (Hqtr : forall v, quarterly_form v = true <-> Raw.form v = Some "10-Q").
  { intros v. unfold quarterly_form. rewrite PyStrFacts.in_list_In.
    destruct (Raw.form v) as [f|]; simpl.
    - split; [intros [H|[]]; now subst | intros [= ->]; auto].
    - split; [intros [H|[]]; discriminate | discriminate]. }
  assert (Hann_in : forall v, In v (filter_forms "annual" usd_data) <->
     In v usd_data /\ In (Raw.form v) [Some "10-K"; Some "20-F"; Some "40-F"]).
  { intros v. now rewrite filter_forms_annual, filter_In, Hann. }
  assert (Hqtr_in : forall v, In v (filter_forms "quarterly" usd_data) <->
     In v usd_data /\ Raw.form v = Some "10-Q").
  { intros v. now rewrite filter_forms_quarterly, filter_In, Hqtr. }
  split; [apply filter_forms_annual|].
  split.
  { rewrite filter_forms_quarterly. apply filter_ext. intros v.
    unfold quarterly_form. simpl.
    now destruct (String.eqb (default "" (Raw.form v)) "10-Q"). }
  split; [exact Hann_in|]. split; [exact Hqtr_in|].
  split; intros years v H; apply normalize_values_In in H as (raw & -> & Hin).
  - apply Hann_in in Hin as [_ Hin]. split; [exact Hin|].
    simpl in *. intros Hq. rewrite Hq in Hin.
    repeat destruct Hin as [Hin|Hin]; try discriminate; tauto.
  - apply Hqtr_in in Hin as [_ Hin]. simpl. rewrite Hin.
    split; [reflexivity | discriminate].
Qed.

(** ** Ordering and horizon bound *)

Lemma end_date_key_format v : end_date_key (format_value v) = end_key v.
Proof. reflexivity. Qed.

Lemma desc_map_format l :
  PyList.desc end_key l -> PyList.desc end_date_key (List.map format_value l).
Proof.
  intros Hl i a b Ha Hb.
  rewrite nth_error_map in Ha, Hb.
  destruct (nth_error l i) as [ra|] eqn:Hra; [|discriminate].
  destruct (nth_error l (S i)) as [rb|] eqn:Hrb; [|discriminate].
  injection Ha as <-. injection Hb as <-.
  rewrite !end_date_key_format. eapply Hl; eauto.
Qed.

Lemma sort_and_limit_desc period years l :
  PyList.desc end_key (sort_and_limit period years l).
Proof.
  apply PyListFacts.StronglySorted_desc. unfold sort_and_limit.
  destruct (String.eqb period "annual");
    apply PyListFacts.StronglySorted_slice_to,
          PyListFacts.sort_desc_StronglySorted.
Qed.

Lemma normalize_values_desc period years usd_data :
  PyList.desc end_date_key (normalize_values period years usd_data).
Proof. apply desc_map_format, sort_and_limit_desc. Qed.

Lemma normalize_values_length_annual years usd_data :
  (0 <= years)%Z ->
  (Z.of_nat (List.length (normalize_values "annual" years usd_data)) <= years)%Z.
Proof.
  intros Hy. unfold normalize_values, sort_and_limit.
  rewrite length_map. change (String.eqb "annual" "annual") with true.
  now apply PyListFacts.length_slice_to.
Qed.

Lemma normalize_values_length_other period years usd_data :
  period <> "annual" -> (0 <= years)%Z ->
  (Z.of_nat (List.length (normalize_values period years usd_data))
     <= years * 4)%Z.
Proof.
  intros Hp Hy. unfold normalize_values, sort_and_limit.
  rewrite length_map. apply String.eqb_neq in Hp. rewrite Hp.
  apply PyListFacts.length_slice_to. lia.
Qed.

Lemma filter_item_values item_name item_data period years li :
  filter_item item_name item_data period years = Some li ->
  exists c usd_data,
    item_data = Some c /\
    usd_data = select_usd_data (default [] (Concept.units c)) /\
    usd_data <> [] /\
    Line.values li = normalize_values period years usd_data.
Proof.
  unfold filter_item. destruct item_data as [c|]; [|discriminate].
  destruct (Concept.is_empty c); [discriminate|].
  destruct (select_usd_data _) as [|v vs] eqn:Hsel; [discriminate|].
  intros [= <-]. exists c, (v :: vs). simpl. repeat split; auto; discriminate.
Qed.

Lemma filter_by_period_In data period years item_name line :
  In (item_name, line) (_filter_by_period data period years) ->
  exists item_data,
    In (item_name, item_data) data /\
    line = filter_item item_name item_data period years.
Proof.
  unfold _filter_by_period. rewrite in_map_iff.
  intros ([name item_data] & [= <- <-] & Hin). eauto.
Qed.

(** C2, as the code has it.  For a horizon that is not negative, the values
    of every line item produced by [_filter_by_period] are in non-increasing
    order of period end, adjacent pair by adjacent pair, and there are at most
    [years] of them for annual and at most [years * 4] for quarterly
    normalization. *)
Theorem filter_by_period_sorted_bounded
    (data : list (string * option Concept.t))
    (period : string) (years : Z) (item_name : string) (li : Line.t) :
  (0 <= years)%Z ->
  In (item_name, Some li) (_filter_by_period data period years) ->
  (forall i a b,
     nth_error (Line.values li) i = Some a ->
     nth_error (Line.values li) (S i) = Some b ->
     String.leb (end_date_key b) (end_date_key a) = true) /\
  (period = "annual" ->
     (Z.of_nat (List.length (Line.values li)) <= years)%Z) /\
  (period = "quarterly" ->
     (Z.of_nat (List.length (Line.values li)) <= years * 4)%Z).
Proof.
  intros Hy Hin.
  apply filter_by_period_In in Hin as (item_data & _ & H). symmetry in H.
  apply filter_item_values in H as (c & usd_data & _ & _ & _ & ->).
  split; [apply normalize_values_desc|]. split.
  - intros ->. now apply normalize_values_length_annual.
  - intros ->. now apply normalize_values_length_other.
Qed.

(** The income-statement scenario: five annual observations, horizon 3. *)
Lemma filter_by_period_sorted_bounded_witness :
  exists li,
    _filter_by_period Sample.income_items "annual" 3 =
      [("revenues", Some li); ("gross_profit", None)] /\
    List.map Fmt.value (Line.values li) = [Some 140; Some 130; Some 121]%Q /\
    (forall i a b,
       nth_error (Line.values li) i = Some a ->
       nth_error (Line.values li) (S i) = Some b ->
       String.leb (end_date_key b) (end_date_key a) = true) /\
    ("annual" = "annual" ->
       (Z.of_nat (List.length (Line.values li)) <= 3)%Z) /\
    ("annual" = "quarterly" ->
       (Z.of_nat (List.length (Line.values li)) <= 3 * 4)%Z).
Proof.
  eexists. split; [reflexivity|]. split; [reflexivity|].
  apply (filter_by_period_sorted_bounded Sample.income_items "annual" 3
           "revenues"); [lia | now left].
Defined.

(** C2 as stated fails for a negative horizon: [filtered_values[:-1]] drops
    the last observation only, so four values remain where the bound is
    [-1]. *)
Lemma filter_by_period_negative_horizon :
  exists li,
    _filter_by_period Sample.income_items "annual" (-1) =
      [("revenues", Some li); ("gross_profit", None)] /\
    List.length (Line.values li) = 4%nat /\
    ~ (Z.of_nat (List.length (Line.values li)) <= -1)%Z.
Proof.
  eexists. split; [reflexivity|]. split; [reflexivity|].
  vm_compute. intros H. apply H. reflexivity.
Qed.

(** ** Sort order and ties *)

Lemma with_key_filter_forms k period l :
  PyList.with_key end_key k (filter_forms period l) =
  filter_forms period (PyList.with_key end_key k l).
Proof.
  induction l as [|v vs IH]; [reflexivity|].
  unfold PyList.with_key in *. cbn [filter_forms List.filter].
  destruct (String.eqb (end_key v) k) eqn:Hk; cbn [filter_forms];
    destruct (_ && _); cbn [List.filter]; rewrite ?Hk, ?IH; auto;
    destruct (_ && _); cbn [List.filter]; rewrite ?Hk, ?IH; auto.
Qed.

(** C4, as the code has it.  Period normalization sorts the filtered
    observations by period end only, most recent first, and the sort is
    stable: the result is a rearrangement of the filtered observations, in
    non-increasing order of period end, in which the observations of one
    period end keep the order they had in the input (filing date and accession
    id are not looked at).  So two input sequences that list, for every period
    end, the same observations in the same order give the same output. *)
Theorem normalize_values_stable_sort
    (period : string) (years : Z) (l1 l2 : list Raw.t) :
  (forall k, PyList.with_key end_key k l1 = PyList.with_key end_key k l2) ->
  Permutation (PyList.sort_desc end_key (filter_forms period l1))
              (filter_forms period l1) /\
  PyList.desc end_key (PyList.sort_desc end_key (filter_forms period l1)) /\
  (forall k,
     PyList.with_key end_key k
       (PyList.sort_desc end_key (filter_forms period l1)) =
     PyList.with_key end_key k (filter_forms period l1)) /\
  normalize_values period years l1 = normalize_values period years l2.
Proof.
  intros Hk.
  split; [apply PyListFacts.sort_desc_perm|].
  split; [apply PyListFacts.StronglySorted_desc,
                PyListFacts.sort_desc_StronglySorted|].
  split; [intros k; apply PyListFacts.with_key_sort_desc|].
  unfold normalize_values, sort_and_limit.
  rewrite (PyListFacts.sort_desc_with_key_eq end_key
             (filter_forms period l1) (filter_forms period l2)); auto.
  intros k. now rewrite !with_key_filter_forms, Hk.
Qed.

(** Two observations of different period ends, in either input order. *)
Lemma normalize_values_stable_sort_witness :
  normalize_values "annual" 3 [Sample.previous; Sample.amendment] =
  normalize_values "annual" 3 [Sample.amendment; Sample.previous].
Proof.
  apply (normalize_values_stable_sort "annual" 3
           [Sample.previous; Sample.amendment]
           [Sample.amendment; Sample.previous]).
  intros k. unfold PyList.with_key. cbn [List.filter].
  change (end_key Sample.amendment) with "2023-12-31".
  change (end_key Sample.previous) with "2022-12-31".
  destruct (String.eqb_spec "2022-12-31" k) as [<-|Hk]; [reflexivity|].
  destruct (String.eqb_spec "2023-12-31" k); reflexivity.
Defined.

(** C4 as stated fails: with one period end filed twice, the two orderings
    of the same two observations give different outputs, and the earlier
    filing stays first when it came first. *)
Lemma normalize_values_ties_follow_input :
  Permutation [Sample.original; Sample.amendment]
              [Sample.amendment; Sample.original] /\
  normalize_values "annual" 3 [Sample.original; Sample.amendment] =
    [format_value Sample.original; format_value Sample.amendment] /\
  normalize_values "annual" 3 [Sample.amendment; Sample.original] =
    [format_value Sample.amendment; format_value Sample.original] /\
  normalize_values "annual" 3 [Sample.original; Sample.amendment] <>
  normalize_values "annual" 3 [Sample.amendment; Sample.original].
Proof.
  split; [apply perm_swap|]. split; [reflexivity|]. split; [reflexivity|].
  vm_compute. discriminate.
Qed.

(** ** Unit selection *)

Lemma other_currency_units_first before unit values after :
  Forall (fun uv => currency_like (fst uv) = false) before ->
  currency_like unit = true ->
  other_currency_units (before ++ (unit, values) :: after) = values.
Proof.
  intros Hb Hu. induction Hb as [|[u vs] before Hu' Hb IH]; simpl.
  - unfold currency_like in Hu. now rewrite Hu.
  - unfold currency_like in Hu'. simpl in Hu'. now rewrite Hu'.
Qed.

Lemma other_currency_units_none units :
  Forall (fun uv => currency_like (fst uv) = false) units ->
  other_currency_units units = [].
Proof.
  induction 1 as [|[u vs] units Hu' Hb IH]; simpl; auto.
  unfold currency_like in Hu'. simpl in Hu'. now rewrite Hu'.
Qed.

Lemma alist_get_none_currency (units : list (string * list Raw.t)) :
  Forall (fun uv => currency_like (fst uv) = false) units ->
  PyList.alist_get "USD" units = None.
Proof.
  induction 1 as [|[u vs] units Hu' Hb IH]; simpl; auto.
  destruct (String.eqb_spec u "USD") as [->|]; auto.
  discriminate.
Qed.

(** C5, as the code has it.  Unit selection takes the ["USD"] sub-series
    when it is present and not empty; otherwise it takes the sub-series of the
    first unit, in the order of the mapping, whose label ends in ["USD"] or is
    ["shares"]; there is no fall-back to the first available unit: when no
    label is of that kind nothing is selected.  A concept normalizes to
    absence exactly when the selected sub-series is empty, so a concept whose
    units all carry other labels normalizes to absence. *)
Theorem select_usd_data_spec (units : list (string * list Raw.t)) :
  (forall usd_data,
     PyList.alist_get "USD" units = Some usd_data -> usd_data <> [] ->
     select_usd_data units = usd_data) /\
  (default [] (PyList.alist_get "USD" units) = [] ->
   forall before unit values after,
     units = before ++ (unit, values) :: after ->
     Forall (fun uv => PyStr.endswith (fst uv) "USD" = false /\
                       fst uv <> "shares") before ->
     PyStr.endswith unit "USD" = true \/ unit = "shares" ->
     select_usd_data units = values) /\
  (Forall (fun uv => PyStr.endswith (fst uv) "USD" = false /\
                     fst uv <> "shares") units ->
   select_usd_data units = []) /\
  (forall item_name c period years,
     Concept.units c = Some units ->
     (filter_item item_name (Some c) period years = None <->
      select_usd_data units = [])).
Proof.
  assert (Hcl : forall l : list (string * list Raw.t),
            Forall (fun uv => PyStr.endswith (fst uv) "USD" = false /\
                              fst uv <> "shares") l ->
            Forall (fun uv => currency_like (fst uv) = false) l).
  { intros l. apply List.Forall_impl. intros [u vs] [He Hs]. simpl in *.
    unfold currency_like. rewrite He. simpl. now apply String.eqb_neq. }
  split; [|split; [|split]].
  - intros usd_data Hget Hne. unfold select_usd_data. rewrite Hget. simpl.
    destruct usd_data; congruence.
  - intros Hempty before unit values after -> Hb Hu.
    unfold select_usd_data. rewrite Hempty.
    apply other_currency_units_first; auto.
    unfold currency_like. destruct Hu as [->| ->]; reflexivity.
  - intros Hall. apply Hcl in Hall. unfold select_usd_data.
    rewrite alist_get_none_currency by auto. simpl.
    now apply other_currency_units_none.
  - intros item_name c period years Hu. unfold filter_item.
    assert (Hne : Concept.is_empty c = false).
    { unfold Concept.is_empty. rewrite Hu. now destruct (Concept.description c). }
    rewrite Hne, Hu. simpl.
    destruct (select_usd_data units); split; auto; discriminate.
Qed.

(** C5 as stated fails: a concept whose only unit is ["EUR"], with six
    observations in it, normalizes to absence. *)
Lemma filter_item_euro_absent :
  Concept.units Sample.euro_revenues = Some [("EUR", Sample.revenue_series)] /\
  Sample.revenue_series <> [] /\
  filter_item "revenues" (Some Sample.euro_revenues) "annual" 3 = None.
Proof.
  split; [reflexivity|]. split; [discriminate | reflexivity].
Qed.

(** * Part III: properties of the metrics and of the DCF engine *)

Module PyFacts.

Import Py.
Local Open Scope Q_scope.

Lemma gt_spec a b : gt a b = true <-> b < a.
Proof.
  unfold gt. rewrite negb_true_iff, <- not_true_iff_false, Qle_bool_iff.
  split; [apply Qnot_le_lt | apply Qlt_not_le].
Qed.

Lemma gt_false a b : gt a b = false <-> a <= b.
Proof. unfold gt. now rewrite negb_false_iff, Qle_bool_iff. Qed.

Lemma Qeq_bool_false a b : ~ a == b -> Qeq_bool a b = false.
Proof.
  intros H. apply not_true_iff_false. now rewrite Qeq_bool_iff.
Qed.

Lemma div_ret a b : ~ b == 0 -> div a b = Ret (a / b).
Proof. intros H. unfold div. now rewrite Qeq_bool_false. Qed.

Lemma div_raise a b : b == 0 -> div a b = Raise ZeroDivisionError.
Proof. intros H. unfold div. now rewrite (Qeq_eq_bool _ _ H). Qed.

Lemma last_item_ret {A : Type} (l : list A) :
  l <> [] -> exists x, last_item l = Ret x.
Proof.
  intros Hl. unfold last_item. destruct (List.rev l) as [|x xs] eqn:Hr; eauto.
  apply (f_equal (@List.rev A)) in Hr. rewrite rev_involutive in Hr.
  now subst.
Qed.

End PyFacts.

Module FinancialMetricsFacts.

Import Py FinancialMetrics.
Local Open Scope Q_scope.

(** C6. For every input with [total_assets] not zero the Altman Z-Score is
    returned with a classification that is "Safe Zone" iff Z > 2.99, "Grey
    Zone" iff 1.81 < Z <= 2.99 and "Distress Zone" iff Z <= 1.81; so Z = 3.00
    is in the Safe Zone, Z = 2.99 in the Grey Zone and Z = 1.81 in the
    Distress Zone. *)
Theorem altman_zone_thresholds
    (working_capital total_assets retained_earnings ebit
     market_value_equity total_liabilities sales : Q) :
  ~ total_assets == 0 ->
  exists z interpretation,
    calculate_altman_z_score working_capital total_assets retained_earnings
      ebit market_value_equity total_liabilities sales
    = Ret (z, interpretation) /\
    z == 1.2 * (working_capital / total_assets)
         + 1.4 * (retained_earnings / total_assets)
         + 3.3 * (ebit / total_assets)
         + 0.6 * (if gt total_liabilities 0
                  then market_value_equity / total_liabilities else 0)
         + 1.0 * (sales / total_assets) /\
    (in_zone "Safe Zone" interpretation <-> 2.99 < z) /\
    (in_zone "Grey Zone" interpretation <-> 1.81 < z /\ z <= 2.99) /\
    (in_zone "Distress Zone" interpretation <-> z <= 1.81) /\
    (z == 3.00 -> in_zone "Safe Zone" interpretation) /\
    (z == 2.99 -> in_zone "Grey Zone" interpretation) /\
    (z == 1.81 -> in_zone "Distress Zone" interpretation).
Proof.
  intros Hta. unfold calculate_altman_z_score.
  rewrite (PyFacts.Qeq_bool_false _ _ Hta).
  rewrite !(PyFacts.div_ret _ total_assets Hta). cbn [mbind result_bind].
  set (D := if gt total_liabilities 0
            then market_value_equity / total_liabilities else 0).
  assert (HD : (if gt total_liabilities 0
                then div market_value_equity total_liabilities else Ret 0)
               = Ret D).
  { unfold D. destruct (gt total_liabilities 0) eqn:Htl; auto.
    apply PyFacts.div_ret. apply PyFacts.gt_spec in Htl. lra. }
  rewrite HD. cbn [mbind result_bind].
  set (z := 1.2 * _ + _ + _ + _ + _).
  exists z. eexists. split; [reflexivity|]. split; [reflexivity|].
  unfold in_zone.
  destruct (gt z 2.99) eqn:Hsafe.
  - apply PyFacts.gt_spec in Hsafe. simpl.
    repeat split; intros; try discriminate; try lra; auto.
  - apply PyFacts.gt_false in Hsafe.
    destruct (gt z 1.81) eqn:Hgrey.
    + apply PyFacts.gt_spec in Hgrey. simpl.
      repeat split; intros; try discriminate; try lra; auto.
    + apply PyFacts.gt_false in Hgrey. simpl.
      repeat split; intros; try discriminate; try lra; auto.
Qed.

(** Sales of 2.99 on total assets of 1 and nothing else: Z = 2.99. *)
Lemma altman_zone_thresholds_witness :
  exists z interpretation,
    calculate_altman_z_score 0 1 0 0 0 0 2.99 = Ret (z, interpretation) /\
    z == 1.2 * (0 / 1) + 1.4 * (0 / 1) + 3.3 * (0 / 1)
         + 0.6 * (if gt 0 0 then 0 / 0 else 0) + 1.0 * (2.99 / 1) /\
    (in_zone "Safe Zone" interpretation <-> 2.99 < z) /\
    (in_zone "Grey Zone" interpretation <-> 1.81 < z /\ z <= 2.99) /\
    (in_zone "Distress Zone" interpretation <-> z <= 1.81) /\
    (z == 3.00 -> in_zone "Safe Zone" interpretation) /\
    (z == 2.99 -> in_zone "Grey Zone" interpretation) /\
    (z == 1.81 -> in_zone "Distress Zone" interpretation).
Proof.
  apply (altman_zone_thresholds 0 1 0 0 0 0 2.99).
  intros H. discriminate H.
Defined.

Lemma altman_boundaries :
  (exists z, calculate_altman_z_score 0 1 0 0 0 0 3.00
             = Ret (z, "Safe Zone - Low bankruptcy risk") /\ z == 3.00) /\
  (exists z, calculate_altman_z_score 0 1 0 0 0 0 2.99
             = Ret (z, "Grey Zone - Moderate bankruptcy risk") /\ z == 2.99) /\
  (exists z, calculate_altman_z_score 0 1 0 0 0 0 1.81
             = Ret (z, "Distress Zone - High bankruptcy risk") /\ z == 1.81).
Proof.
  repeat split; eexists; (split; [vm_compute; reflexivity | reflexivity]).
Qed.

Lemma fst_signal name cond st :
  fst (signal name cond st) = <[name := cond]> (fst st).
Proof. unfold signal. now destruct cond. Qed.

Lemma snd_signal name cond st :
  snd (signal name cond st) = (snd st + (if cond then 1 else 0))%Z.
Proof. unfold signal. destruct cond; simpl; lia. Qed.

(** The breakdown, signal by signal. *)
Lemma piotroski_criteria (financials : gmap string Q) :
  let get k := default 0 (financials !! k) in
  snd (calculate_piotroski_f_score financials) =
  <["increasing_efficiency" := gt (get "asset_turnover_change") 0]> (
  <["increasing_margin" := gt (get "gross_margin_change") 0]> (
  <["no_dilution" := Qle_bool (get "shares_change") 0]> (
  <["increasing_liquidity" := gt (get "current_ratio_change") 0]> (
  <["decreasing_leverage" := lt (get "leverage_change") 0]> (
  <["quality_earnings" :=
      gt (get "operating_cash_flow") (get "net_income")]> (
  <["increasing_roa" := gt (get "roa_change") 0]> (
  <["positive_ocf" := gt (get "operating_cash_flow") 0]> (
  <["positive_roa" := gt (get "roa") 0]> ∅)))))))).
Proof.
  unfold calculate_piotroski_f_score. cbn zeta. cbn [snd].
  now rewrite !fst_signal.
Qed.

(** C7, as the code has it.  A missing field is read as 0.  Each of the seven
    signals that test one field strictly against 0 is false when its field is
    missing; quality of earnings compares the two fields it reads, so it is
    false when both are missing; no dilution tests [shares_change <= 0], so it
    is true when [shares_change] is missing.  For the empty mapping all
    signals but no dilution are false and the score is 1.  Nothing raises. *)
Theorem piotroski_missing_inputs (financials : gmap string Q) :
  let score := fst (calculate_piotroski_f_score financials) in
  let criteria := snd (calculate_piotroski_f_score financials) in
  (financials !! "roa" = None -> criteria !! "positive_roa" = Some false) /\
  (financials !! "operating_cash_flow" = None ->
     criteria !! "positive_ocf" = Some false) /\
  (financials !! "roa_change" = None ->
     criteria !! "increasing_roa" = Some false) /\
  (criteria !! "quality_earnings" =
     Some (gt (default 0 (financials !! "operating_cash_flow"))
              (default 0 (financials !! "net_income")))) /\
  (financials !! "operating_cash_flow" = None ->
   financials !! "net_income" = None ->
     criteria !! "quality_earnings" = Some false) /\
  (financials !! "leverage_change" = None ->
     criteria !! "decreasing_leverage" = Some false) /\
  (financials !! "current_ratio_change" = None ->
     criteria !! "increasing_liquidity" = Some false) /\
  (financials !! "shares_change" = None ->
     criteria !! "no_dilution" = Some true) /\
  (financials !! "gross_margin_change" = None ->
     criteria !! "increasing_margin" = Some false) /\
  (financials !! "asset_turnover_change" = None ->
     criteria !! "increasing_efficiency" = Some false) /\
  (financials = ∅ ->
     score = 1%Z /\
     forall name b, criteria !! name = Some b ->
       b = String.eqb name "no_dilution").
Proof.
  intros score criteria. subst score criteria.
  rewrite piotroski_criteria. cbn zeta.
  assert (Hgt : gt 0 0 = false) by reflexivity.
  assert (Hlt : lt 0 0 = false) by reflexivity.
  assert (Hle : Qle_bool 0 0 = true) by reflexivity.
  split; [intros H; rewrite H; simplify_map_eq; reflexivity|].
  split; [intros H; rewrite H; simplify_map_eq; reflexivity|].
  split; [intros H; rewrite H; simplify_map_eq; reflexivity|].
  split; [simplify_map_eq; reflexivity|].
  split; [intros H1 H2; rewrite H1, H2; simplify_map_eq; reflexivity|].
  split; [intros H; rewrite H; simplify_map_eq; reflexivity|].
  split; [intros H; rewrite H; simplify_map_eq; reflexivity|].
  split; [intros H; rewrite H; simplify_map_eq; reflexivity|].
  split; [intros H; rewrite H; simplify_map_eq; reflexivity|].
  split; [intros H; rewrite H; simplify_map_eq; reflexivity|].
  intros ->. split; [reflexivity|].
  intros name b. rewrite !lookup_empty. cbn [default].
  rewrite Hgt, Hlt, Hle. intros H.
  repeat (apply lookup_insert_Some in H as [[<- <-]|[_ H]];
          [reflexivity|]).
  rewrite lookup_empty in H. discriminate.
Qed.

(** C7 as stated fails: for the empty mapping the no-dilution signal is true
    and the score is 1. *)
Lemma piotroski_empty_mapping :
  fst (calculate_piotroski_f_score ∅) = 1%Z /\
  snd (calculate_piotroski_f_score ∅) !! "no_dilution" = Some true.
Proof. split; reflexivity. Qed.

End FinancialMetricsFacts.

Module DCFModelFacts.

Import Py DCFModel.
Local Open Scope Q_scope.

Lemma terminal_value_ret final_fcf terminal_growth wacc :
  exists v, calculate_terminal_value final_fcf terminal_growth wacc = Ret v.
Proof.
  unfold calculate_terminal_value.
  destruct (Qle_bool wacc terminal_growth) eqn:Hle; eauto.
  rewrite PyFacts.div_ret; eauto.
  intros H. assert (Hw : wacc <= terminal_growth) by lra.
  apply Qle_bool_iff in Hw. congruence.
Qed.

(** C8. For every final free cash flow, terminal growth rate and WACC the
    terminal value is returned, never raised: it is 0 when WACC <= g and
    [final_fcf * (1 + g) / (WACC - g)] when WACC > g. *)
Theorem terminal_value_guard (final_fcf terminal_growth wacc : Q) :
  (wacc <= terminal_growth ->
     calculate_terminal_value final_fcf terminal_growth wacc = Ret 0) /\
  (terminal_growth < wacc ->
     calculate_terminal_value final_fcf terminal_growth wacc =
     Ret (final_fcf * (1 + terminal_growth) / (wacc - terminal_growth))) /\
  (exists v, calculate_terminal_value final_fcf terminal_growth wacc = Ret v).
Proof.
  unfold calculate_terminal_value.
  destruct (Qle_bool wacc terminal_growth) eqn:Hle.
  - apply Qle_bool_iff in Hle.
    split; [reflexivity|]. split; [intros; lra | eauto].
  - assert (Hlt : terminal_growth < wacc).
    { apply Qnot_le_lt. intros H. apply Qle_bool_iff in H. congruence. }
    rewrite PyFacts.div_ret by lra.
    split; [intros; lra|]. split; [reflexivity | eauto].
Qed.

Lemma terminal_value_same_rates :
  calculate_terminal_value 100 0.03 0.03 = Ret 0.
Proof. reflexivity. Qed.

Lemma discounted_sum_ret wacc fcfs : forall i acc,
  ~ 1 + wacc == 0 -> exists v, discounted_sum wacc i fcfs acc = Ret v.
Proof.
  induction fcfs as [|fcf rest IH]; intros i acc Hw; simpl; eauto.
  rewrite PyFacts.div_ret by now apply Qpower_not_0.
  cbn [mbind result_bind]. now apply IH.
Qed.

Lemma discounted_sum_raise wacc fcf rest acc :
  1 + wacc == 0 ->
  discounted_sum wacc 0 (fcf :: rest) acc = Raise ZeroDivisionError.
Proof.
  intros Hw. cbn [discounted_sum].
  rewrite PyFacts.div_raise; [reflexivity | exact Hw].
Qed.

Lemma dcf_value_ret fcf_projections terminal_growth wacc net_debt
    shares_outstanding :
  fcf_projections <> [] -> ~ 1 + wacc == 0 ->
  exists r,
    calculate_dcf_value fcf_projections terminal_growth wacc net_debt
      shares_outstanding = Ret r /\
    enterprise_value r = pv_fcfs r + pv_terminal r /\
    equity_value r = enterprise_value r - net_debt /\
    intrinsic_value_per_share r =
      (if gt shares_outstanding 0
       then equity_value r / shares_outstanding else 0).
Proof.
  intros Hne Hw. unfold calculate_dcf_value.
  destruct (discounted_sum_ret wacc fcf_projections 0%nat 0 Hw) as [pv ->].
  destruct (PyFacts.last_item_ret fcf_projections Hne) as [tf ->].
  cbn [mbind result_bind].
  destruct (terminal_value_ret tf terminal_growth wacc) as [tv ->].
  cbn [mbind result_bind].
  rewrite PyFacts.div_ret by now apply Qpower_not_0.
  cbn [mbind result_bind].
  destruct (gt shares_outstanding 0) eqn:Hs.
  - rewrite PyFacts.div_ret
      by (apply PyFacts.gt_spec in Hs; lra).
    cbn [mbind result_bind]. eexists. split; [reflexivity|].
    cbn [enterprise_value equity_value pv_fcfs pv_terminal
         intrinsic_value_per_share]. auto.
  - cbn [mbind result_bind]. eexists. split; [reflexivity|].
    cbn [enterprise_value equity_value pv_fcfs pv_terminal
         intrinsic_value_per_share]. auto.
Qed.

(** With a rate between -50% and 100% and at most 1000 years every discount
    factor lies between [2 ^ -1000] and [2 ^ 1000], far inside the range of
    a double. *)
Lemma discount_factor_range wacc (n : nat) :
  - (1 # 2) <= wacc -> wacc <= 1 -> (n <= 1000)%nat ->
  2 ^ (-1000) <= (1 + wacc) ^ Z.of_nat n /\
  (1 + wacc) ^ Z.of_nat n <= 2 ^ 1000.
Proof.
  intros Hlo Hhi Hn.
  assert (Hstep : forall k : nat,
             0 < 2 ^ (- Z.of_nat k) /\
             2 ^ (- Z.of_nat k) <= (1 + wacc) ^ Z.of_nat k /\
             (1 + wacc) ^ Z.of_nat k <= 2 ^ Z.of_nat k).
  { induction k as [|k (Hpos & IHlo & IHhi)].
    - cbn. split; [reflexivity | split; apply Qle_refl].
    - replace (- Z.of_nat (S k))%Z with (- Z.of_nat k + -1)%Z by lia.
      replace (Z.of_nat (S k)) with (Z.of_nat k + 1)%Z by lia.
      rewrite !Qpower_plus by lra.
      change (2 ^ (-1)) with (1 # 2). change (2 ^ 1) with 2.
      change ((1 + wacc) ^ 1) with (1 + wacc).
      set (l := 2 ^ (- Z.of_nat k)) in *.
      set (x := (1 + wacc) ^ Z.of_nat k) in *.
      set (u := 2 ^ Z.of_nat k) in *.
      split; [nra|]. split; nra. }
  destruct (Hstep n) as (_ & Hl & Hu).
  split.
  - apply Qle_trans with (2 ^ (- Z.of_nat n)); [|exact Hl].
    apply Qpower_le_compat_l; [lia | lra].
  - apply Qle_trans with (2 ^ Z.of_nat n); [exact Hu|].
    apply Qpower_le_compat_l; [lia | lra].
Qed.

(** C10, as the code has it.  [calculate_dcf_value] reads the last element
    of [fcf_projections]: on the empty list it raises [IndexError].  A list
    that is not empty is not enough for every rate: the discount factors are
    divided by without a guard, and with [wacc = -1] the first one is zero
    and the division raises [ZeroDivisionError].  For a list of at most 1000
    cash flows that is not empty and a [wacc] between -50% and 100% the
    enterprise, equity and per-share values are returned; and whatever the
    inputs, a returned result has the enterprise value
    [pv_fcfs + pv_terminal], the equity value that minus net debt, and the
    per-share value the equity value over the shares when there are shares,
    0 otherwise. *)
Theorem dcf_value_defined (fcf_projections : list Q)
    (terminal_growth wacc net_debt shares_outstanding : Q) :
  (fcf_projections = [] ->
     calculate_dcf_value fcf_projections terminal_growth wacc net_debt
       shares_outstanding = Raise IndexError) /\
  (fcf_projections <> [] -> 1 + wacc == 0 ->
     calculate_dcf_value fcf_projections terminal_growth wacc net_debt
       shares_outstanding = Raise ZeroDivisionError) /\
  (fcf_projections <> [] -> (List.length fcf_projections <= 1000)%nat ->
   - (1 # 2) <= wacc -> wacc <= 1 ->
     exists r,
       calculate_dcf_value fcf_projections terminal_growth wacc net_debt
         shares_outstanding = Ret r) /\
  (forall r,
     calculate_dcf_value fcf_projections terminal_growth wacc net_debt
       shares_outstanding = Ret r ->
     fcf_projections <> [] /\
     enterprise_value r = pv_fcfs r + pv_terminal r /\
     equity_value r = enterprise_value r - net_debt /\
     intrinsic_value_per_share r =
       (if gt shares_outstanding 0
        then equity_value r / shares_outstanding else 0)).
Proof.
  split; [|split; [|split]].
  - intros ->. reflexivity.
  - intros Hne Hw. unfold calculate_dcf_value.
    destruct fcf_projections as [|fcf rest]; [congruence|].
    now rewrite discounted_sum_raise.
  - intros Hne _ Hlo Hhi.
    destruct (dcf_value_ret fcf_projections terminal_growth wacc net_debt
                shares_outstanding Hne) as (r & Hr & _); [lra | eauto].
  - intros r. unfold calculate_dcf_value.
    destruct (discounted_sum wacc 0 fcf_projections 0) as [pv|e];
      cbn [mbind result_bind]; [|discriminate].
    destruct (last_item fcf_projections) as [tf|e] eqn:Hlast;
      cbn [mbind result_bind]; [|discriminate].
    destruct (calculate_terminal_value tf terminal_growth wacc) as [tv|e];
      cbn [mbind result_bind]; [|discriminate].
    destruct (div tv _) as [pvt|e]; cbn [mbind result_bind]; [|discriminate].
    assert (Hne : fcf_projections <> []).
    { intros ->. discriminate Hlast. }
    destruct (gt shares_outstanding 0).
    + destruct (div _ shares_outstanding) as [ps|e] eqn:Hps;
        cbn [mbind result_bind]; [|discriminate].
      intros [= <-].
      cbn [enterprise_value equity_value pv_fcfs pv_terminal
           intrinsic_value_per_share].
      unfold div in Hps. destruct (Qeq_bool shares_outstanding 0);
        [discriminate|]. injection Hps as <-. auto.
    + cbn [mbind result_bind]. intros [= <-].
      cbn [enterprise_value equity_value pv_fcfs pv_terminal
           intrinsic_value_per_share]. auto.
Qed.

(** C10 as stated fails: a one-year projection discounted at a WACC of
    -100% divides by zero. *)
Lemma dcf_value_wacc_minus_one :
  [100] <> @nil Q /\
  calculate_dcf_value [100] 0.02 (-1) 0 1 = Raise ZeroDivisionError.
Proof. split; [discriminate | reflexivity]. Qed.

End DCFModelFacts.

(** ** numpy's percentiles are monotone *)

Module NpFacts.

Import Np.
Local Open Scope Q_scope.

Lemma length_insert x l : List.length (insert x l) = S (List.length l).
Proof.
  induction l as [|y ys IH]; simpl; auto.
  destruct (Qle_bool x y); simpl; auto.
Qed.

Lemma length_sort l : List.length (sort l) = List.length l.
Proof.
  induction l as [|x xs IH]; simpl; auto.
  now rewrite length_insert, IH.
Qed.

Lemma insert_Sorted x l : Sorted Qle l -> Sorted Qle (insert x l).
Proof.
  induction 1 as [|y ys Hs IH Hhd]; simpl.
  - repeat constructor.
  - destruct (Qle_bool x y) eqn:Hxy.
    + apply Qle_bool_iff in Hxy. repeat constructor; auto.
    + assert (Hyx : y <= x).
      { apply Qlt_le_weak, Qnot_le_lt. intros H.
        apply Qle_bool_iff in H. congruence. }
      constructor; auto.
      destruct ys as [|z zs]; simpl.
      * now constructor.
      * destruct (Qle_bool x z); constructor; auto. now inversion Hhd.
Qed.

Lemma sort_StronglySorted l : StronglySorted Qle (sort l).
Proof.
  apply Sorted_StronglySorted; [exact Qle_trans|].
  induction l as [|x xs IH]; simpl; [constructor|].
  now apply insert_Sorted.
Qed.

Lemma nth_le s :
  StronglySorted Qle s ->
  forall i j, (i <= j < List.length s)%nat -> nth i s 0 <= nth j s 0.
Proof.
  induction 1 as [|x xs Hs IH Hall]; intros i j Hij; simpl in Hij.
  - lia.
  - destruct i as [|i], j as [|j]; simpl; try lia.
    + apply Qle_refl.
    + rewrite List.Forall_forall in Hall. apply Hall, nth_In. lia.
    + apply IH. lia.
Qed.

Lemma Qfloor_unique x z :
  inject_Z z <= x -> x < inject_Z z + 1 -> Qfloor x = z.
Proof.
  intros Hlo Hhi. apply Z.le_antisymm.
  - apply Z.lt_succ_r. rewrite Zlt_Qlt.
    apply Qle_lt_trans with x; [apply Qfloor_le|].
    unfold Z.succ. now rewrite inject_Z_plus.
  - rewrite <- (Qfloor_Z z). now apply Qfloor_resp_le.
Qed.

Lemma gamma_bounds x :
  0 <= x - inject_Z (Qfloor x) /\ x - inject_Z (Qfloor x) < 1.
Proof.
  pose proof (Qfloor_le x) as Hlo. pose proof (Qlt_floor x) as Hhi.
  rewrite inject_Z_plus in Hhi. change (inject_Z 1) with 1 in Hhi.
  split; lra.
Qed.

Lemma lerp_bounds lo hi gamma :
  lo <= hi -> 0 <= gamma -> gamma <= 1 ->
  lo <= lerp lo hi gamma /\ lerp lo hi gamma <= hi.
Proof. intros H1 H2 H3. unfold lerp. split; nra. Qed.

Lemma floor_index x n :
  0 <= x -> x <= Qn n ->
  (Z.to_nat (Qfloor x) <= n)%nat /\ Z.of_nat (Z.to_nat (Qfloor x)) = Qfloor x.
Proof.
  intros H0 Hn.
  assert (Hlo : (0 <= Qfloor x)%Z).
  { change 0%Z with (Qfloor 0). now apply Qfloor_resp_le. }
  assert (Hhi : (Qfloor x <= Z.of_nat n)%Z).
  { rewrite <- (Qfloor_Z (Z.of_nat n)). now apply Qfloor_resp_le. }
  split; lia.
Qed.

(** Reading the sorted array at a fractional index is monotone in the
    index. *)
Lemma at_virtual_index_mono s x y :
  StronglySorted Qle s -> s <> [] ->
  0 <= x -> x <= y -> y <= Qn (List.length s - 1) ->
  at_virtual_index s x <= at_virtual_index s y.
Proof.
  intros Hs Hne Hx Hxy Hy.
  assert (Hlen : (0 < List.length s)%nat) by (destruct s; simpl; [congruence|lia]).
  assert (Hx' : x <= Qn (List.length s - 1)) by lra.
  assert (Hy' : 0 <= y) by lra.
  destruct (floor_index x _ Hx Hx') as [Hix Hfx].
  destruct (floor_index y _ Hy' Hy) as [Hiy Hfy].
  pose proof (gamma_bounds x) as [Hgx0 Hgx1].
  pose proof (gamma_bounds y) as [Hgy0 Hgy1].
  pose proof (Qfloor_resp_le x y Hxy) as Hfl.
  unfold at_virtual_index.
  set (lx := Z.to_nat (Qfloor x)) in *. set (ly := Z.to_nat (Qfloor y)) in *.
  set (n1 := (List.length s - 1)%nat) in *.
  assert (Hax : nth lx s 0 <= nth (Nat.min (lx + 1) n1) s 0)
    by (apply nth_le; auto; lia).
  assert (Hay : nth ly s 0 <= nth (Nat.min (ly + 1) n1) s 0)
    by (apply nth_le; auto; lia).
  destruct (Z.eq_dec (Qfloor x) (Qfloor y)) as [Heq|Hneq].
  - assert (lx = ly) as <- by (unfold lx, ly; congruence).
    rewrite <- Heq. unfold lerp. nra.
  - assert (Hlt : (lx + 1 <= ly)%nat) by lia.
    apply Qle_trans with (nth (Nat.min (lx + 1) n1) s 0).
    + apply lerp_bounds; auto; lra.
    + apply Qle_trans with (nth ly s 0).
      * apply nth_le; auto; lia.
      * apply lerp_bounds; auto; lra.
Qed.

Lemma Qn_double k : Qn (2 * k) == 2 * Qn k.
Proof. rewrite Nat2Z.inj_mul, inject_Z_mult. reflexivity. Qed.

Lemma Qn_succ k : Qn (S k) == Qn k + 1.
Proof. rewrite Nat2Z.inj_succ. unfold Z.succ. now rewrite inject_Z_plus. Qed.

(** The median is the sorted array read at the middle index. *)
Lemma median_virtual a :
  a <> [] ->
  exists m, median a = Some m /\
            m == at_virtual_index (sort a) (Qn (List.length a - 1) * (1 # 2)).
Proof.
  intros Hne. unfold median.
  destruct a as [|a0 a']; [congruence|].
  set (a := a0 :: a') in *. set (n := List.length a).
  assert (Hn : (0 < n)%nat) by (unfold n; simpl; lia).
  assert (Hls : List.length (sort a) = n) by apply length_sort.
  destruct (Nat.even n) eqn:He; eexists; (split; [reflexivity|]).
  - apply Nat.even_spec in He as [k Hk].
    assert (Hk1 : (n - 1 = S (2 * (k - 1)))%nat) by lia.
    assert (Hfl : Qfloor (Qn (n - 1) * (1 # 2)) = Z.of_nat (k - 1)).
    { apply Qfloor_unique; rewrite Hk1, Qn_succ, Qn_double; lra. }
    unfold at_virtual_index. rewrite Hfl, Nat2Z.id, Hls.
    replace (n / 2 - 1)%nat with (k - 1)%nat
      by (rewrite Hk, Nat.mul_comm, Nat.div_mul; lia).
    replace (n / 2)%nat with k
      by (rewrite Hk, Nat.mul_comm, Nat.div_mul; lia).
    replace (Nat.min (k - 1 + 1) (n - 1)) with k by lia.
    unfold lerp. rewrite Hk1, Qn_succ, Qn_double. field.
  - assert (Ho : Nat.odd n = true) by (rewrite <- Nat.negb_even, He; auto).
    apply Nat.odd_spec in Ho as [k Hk].
    assert (Hk1 : (n - 1 = 2 * k)%nat) by lia.
    assert (Hfl : Qfloor (Qn (n - 1) * (1 # 2)) = Z.of_nat k).
    { apply Qfloor_unique; rewrite Hk1, Qn_double; lra. }
    unfold at_virtual_index. rewrite Hfl, Nat2Z.id.
    replace (n / 2)%nat with k.
    2:{ rewrite Hk. replace (2 * k + 1)%nat with (1 + k * 2)%nat by lia.
        rewrite Nat.div_add by lia. reflexivity. }
    unfold lerp. rewrite Hk1, Qn_double. field.
Qed.

(** For every array that is not empty, the 5th percentile, the median and
    the 95th percentile are in this order. *)
Lemma percentiles_ordered a :
  a <> [] ->
  exists p5 m p95,
    percentile a 5 = Py.Ret p5 /\ median a = Some m /\
    percentile a 95 = Py.Ret p95 /\ p5 <= m /\ m <= p95.
Proof.
  intros Hne. destruct (median_virtual a Hne) as (m & Hm & Hmv).
  assert (Hs : StronglySorted Qle (sort a)) by apply sort_StronglySorted.
  assert (Hsne : sort a <> []).
  { intros H. apply (f_equal (@List.length Q)) in H.
    rewrite length_sort in H. destruct a; simpl in H; congruence. }
  assert (Hn0 : 0 <= Qn (List.length a - 1)).
  { change 0 with (inject_Z 0). rewrite <- Zle_Qle. lia. }
  unfold percentile. destruct a as [|a0 a']; [congruence|].
  set (a := a0 :: a') in *.
  do 3 eexists. split; [reflexivity|]. split; [exact Hm|].
  split; [reflexivity|]. rewrite Hmv.
  assert (H5 : 5 / 100 == 1 # 20) by reflexivity.
  assert (H95 : 95 / 100 == 19 # 20) by reflexivity.
  split; apply at_virtual_index_mono; auto;
    rewrite ?length_sort, ?H5, ?H95; lra.
Qed.

End NpFacts.

(** ** Monte Carlo aggregation *)

Module MonteCarloFacts.

Import Py DCFModel.
Local Open Scope Q_scope.

Lemma project_fcfs_nonempty growth_rate noise num_years t current_fcf :
  (0 < num_years)%nat ->
  project_fcfs growth_rate noise num_years t current_fcf <> [].
Proof. destruct num_years; simpl; [lia | discriminate]. Qed.

Lemma simulate_length rnd base_fcf num_years n : forall i results,
  simulate rnd base_fcf num_years n i = Ret results ->
  List.length results = n.
Proof.
  induction n as [|n IH]; intros i results; simpl.
  - now intros [= <-].
  - destruct (calculate_dcf_value _ _ _ _ _) as [r|e];
      cbn [mbind result_bind]; [|discriminate].
    destruct (simulate rnd base_fcf num_years n (S i)) as [rest|e] eqn:Hrest;
      cbn [mbind result_bind]; [|discriminate].
    intros [= <-]. simpl. f_equal. eapply IH; eauto.
Qed.

Lemma simulate_ret rnd base_fcf num_years n : forall i,
  (0 < num_years)%nat ->
  (forall j, (i <= j < i + n)%nat -> ~ 1 + waccs rnd j == 0) ->
  exists results, simulate rnd base_fcf num_years n i = Ret results.
Proof.
  induction n as [|n IH]; intros i Hy Hw; simpl; eauto.
  destruct (DCFModelFacts.dcf_value_ret
              (project_fcfs (growth_rates rnd i) (volatility rnd i)
                 num_years 0 base_fcf)
              (terminal_growths rnd i) (waccs rnd i) 0 1) as (r & -> & _).
  - now apply project_fcfs_nonempty.
  - apply Hw. lia.
  - cbn [mbind result_bind].
    destruct (IH (S i) Hy) as [rest ->]; [intros j Hj; apply Hw; lia|].
    cbn [mbind result_bind]. eauto.
Qed.

(** C9. Every Monte Carlo run of at least 1000 draws that returns has its
    5th percentile, median and 95th percentile in this order; and the run
    does return when at least one year is projected and no sampled WACC is
    -1. *)
Theorem monte_carlo_percentiles_ordered
    (rnd : RandomSource) (base_fcf : Q) (num_years simulations : Z) :
  (1000 <= simulations)%Z ->
  (forall r,
     monte_carlo_dcf rnd base_fcf num_years simulations = Ret r ->
     exists p5 m p95,
       percentile_5 r = Some p5 /\ median_value r = Some m /\
       percentile_95 r = Some p95 /\ p5 <= m /\ m <= p95) /\
  ((1 <= num_years)%Z ->
   (forall i, (i < Z.to_nat simulations)%nat -> ~ 1 + waccs rnd i == 0) ->
   exists r, monte_carlo_dcf rnd base_fcf num_years simulations = Ret r).
Proof.
  intros Hn. unfold monte_carlo_dcf.
  assert (Hneg : (simulations <? 0)%Z = false) by (apply Z.ltb_ge; lia).
  rewrite Hneg.
  assert (Hstats : forall results,
             simulate rnd base_fcf (Z.to_nat num_years)
               (Z.to_nat simulations) 0 = Ret results ->
             exists p5 m p95,
               Np.percentile results 5 = Ret p5 /\
               Np.median results = Some m /\
               Np.percentile results 95 = Ret p95 /\ p5 <= m /\ m <= p95).
  { intros results Hsim. apply NpFacts.percentiles_ordered.
    apply simulate_length in Hsim.
    destruct results; [simpl in Hsim; lia | discriminate]. }
  split.
  - intros r.
    destruct (simulate _ _ _ _ _) as [results|e] eqn:Hsim;
      cbn [mbind result_bind]; [|discriminate].
    destruct (Hstats results eq_refl)
      as (p5 & m & p95 & H5 & Hm & H95 & Hlo & Hhi).
    rewrite H5, H95. cbn [mbind result_bind].
    intros [= <-]. cbn [percentile_5 median_value percentile_95].
    exists p5, m, p95. auto.
  - intros Hy Hw.
    destruct (simulate_ret rnd base_fcf (Z.to_nat num_years)
                (Z.to_nat simulations) 0%nat) as [results Hsim].
    + lia.
    + intros j Hj. apply Hw. lia.
    + destruct (Hstats results Hsim) as (p5 & m & p95 & H5 & _ & H95 & _).
      rewrite Hsim. cbn [mbind result_bind].
      rewrite H5, H95. cbn [mbind result_bind]. eauto.
Qed.

(** A run of 1000 draws returns, with its statistics in order. *)
Lemma monte_carlo_percentiles_ordered_witness :
  exists r p5 m p95,
    monte_carlo_dcf reference_draws 100 5 1000 = Ret r /\
    percentile_5 r = Some p5 /\ median_value r = Some m /\
    percentile_95 r = Some p95 /\ p5 <= m /\ m <= p95.
Proof.
  destruct (monte_carlo_percentiles_ordered reference_draws 100 5 1000)
    as [Hord Hret]; [lia|].
  destruct Hret as [r Hr]; [lia | |].
  - intros i _. cbn [waccs reference_draws].
    assert (Hi : 0 <= inject_Z (Z.of_nat i)).
    { change 0 with (inject_Z 0). rewrite <- Zle_Qle. lia. }
    lra.
  - destruct (Hord r Hr) as (p5 & m & p95 & H5 & Hm & H95 & Hlo & Hhi).
    exists r, p5, m, p95. auto 10.
Defined.

(** A run of five draws, computed: the three statistics are in order and
    the two percentiles differ. *)
Lemma monte_carlo_five_draws :
  match monte_carlo_dcf reference_draws 100 5 5 with
  | Ret r =>
      match percentile_5 r, median_value r, percentile_95 r with
      | Some p5, Some m, Some p95 =>
          Qle_bool p5 m && Qle_bool m p95 && negb (Qeq_bool p5 p95)
      | _, _, _ => false
      end
  | Raise _ => false
  end = true.
Proof. vm_compute. reflexivity. Qed.

End MonteCarloFacts.

(** * Part IV: further properties of the metrics and of the DCF engine *)

Module RatioFacts.

Import Py FinancialRatios.
Local Open Scope Q_scope.

Lemma gt_0_nonzero a : gt a 0 = true -> ~ a == 0.
Proof. intros H. apply PyFacts.gt_spec in H. lra. Qed.

Lemma gt_0_false a : a <= 0 -> gt a 0 = false.
Proof. apply PyFacts.gt_false. Qed.

Lemma gt_0_true a : 0 < a -> gt a 0 = true.
Proof. apply PyFacts.gt_spec. Qed.

(** X1. None of the five ratio functions raises.  With a denominator that is
    zero or negative the three return ratios are 0 and the two valuation
    multiples are the infinite sentinel; with a positive denominator each is
    the plain quotient, so a multiple is finite exactly when its denominator
    is positive. *)
Theorem ratios_guarded (numerator tax_rate denominator : Q) :
  (denominator <= 0 ->
     calculate_roic numerator tax_rate denominator = Ret 0 /\
     calculate_roce numerator denominator = Ret 0 /\
     calculate_fcf_yield numerator denominator = Ret 0 /\
     calculate_ev_to_ebitda numerator denominator = Ret Inf /\
     calculate_peg_ratio numerator denominator = Ret Inf) /\
  (0 < denominator ->
     calculate_roic numerator tax_rate denominator =
       Ret (numerator * (1 - tax_rate) / denominator) /\
     calculate_roce numerator denominator = Ret (numerator / denominator) /\
     calculate_fcf_yield numerator denominator =
       Ret (numerator / denominator) /\
     calculate_ev_to_ebitda numerator denominator =
       Ret (Fin (numerator / denominator)) /\
     calculate_peg_ratio numerator denominator =
       Ret (Fin (numerator / denominator))) /\
  (calculate_ev_to_ebitda numerator denominator = Ret Inf <->
     denominator <= 0).
Proof.
  unfold calculate_roic, calculate_roce, calculate_fcf_yield,
    calculate_ev_to_ebitda, calculate_peg_ratio.
  split; [|split].
  - intros H. rewrite (gt_0_false _ H). auto.
  - intros H. rewrite (gt_0_true _ H).
    rewrite !PyFacts.div_ret by lra. auto.
  - destruct (gt denominator 0) eqn:Hd.
    + apply PyFacts.gt_spec in Hd. rewrite PyFacts.div_ret by lra.
      cbn [mbind result_bind]. split; [discriminate | lra].
    + apply PyFacts.gt_false in Hd. tauto.
Qed.

End RatioFacts.

Module WaccFacts.

Import Py DCFModel.
Local Open Scope Q_scope.

(** X2. With a market capitalisation, a total debt and costs of equity
    and debt that are not negative and a tax rate of at most 100%, the WACC
    is returned and is not negative. *)
Theorem wacc_not_negative
    (market_cap total_debt cost_of_equity cost_of_debt tax_rate : Q) :
  0 <= market_cap -> 0 <= total_debt ->
  0 <= cost_of_equity -> 0 <= cost_of_debt -> tax_rate <= 1 ->
  exists wacc,
    calculate_wacc market_cap total_debt cost_of_equity cost_of_debt tax_rate
      = Ret wacc /\
    0 <= wacc.
Proof.
  intros Hmc Htd Hke Hkd Htax. unfold calculate_wacc.
  destruct (Qeq_bool (market_cap + total_debt) 0) eqn:Hz.
  - exists 0.10. split; [reflexivity | lra].
  - apply Qeq_bool_neq in Hz. rewrite !PyFacts.div_ret by exact Hz.
    cbn [mbind result_bind]. eexists. split; [reflexivity|].
    assert (Hpos : 0 < market_cap + total_debt) by lra.
    assert (Ha : 0 <= market_cap / (market_cap + total_debt))
      by (apply Qle_shift_div_l; lra).
    assert (Hb : 0 <= total_debt / (market_cap + total_debt))
      by (apply Qle_shift_div_l; lra).
    set (a := market_cap / (market_cap + total_debt)) in *.
    set (b := total_debt / (market_cap + total_debt)) in *.
    assert (Hbk : 0 <= b * cost_of_debt) by nra.
    nra.
Qed.

(** Market capitalisation 800, debt 200, cost of equity 12%, cost of debt
    5%, tax rate 21%. *)
Lemma wacc_not_negative_witness :
  exists wacc,
    calculate_wacc 800 200 0.12 0.05 0.21 = Ret wacc /\
    wacc == 0.1039 /\ 0 <= wacc.
Proof.
  destruct (wacc_not_negative 800 200 0.12 0.05 0.21)
    as (wacc & Hw & Hpos); try lra.
  exists wacc. split; [exact Hw|].
  split; [|exact Hpos].
  vm_compute in Hw. injection Hw as <-. reflexivity.
Defined.

(** X3. [calculate_wacc] never raises, and when market capitalisation and
    debt cancel out (in particular when both are zero) it is the default
    10%, whatever the costs. *)
Theorem wacc_default
    (market_cap total_debt cost_of_equity cost_of_debt tax_rate : Q) :
  (exists wacc,
     calculate_wacc market_cap total_debt cost_of_equity cost_of_debt
       tax_rate = Ret wacc) /\
  (market_cap + total_debt == 0 ->
     calculate_wacc market_cap total_debt cost_of_equity cost_of_debt
       tax_rate = Ret 0.10).
Proof.
  unfold calculate_wacc.
  destruct (Qeq_bool (market_cap + total_debt) 0) eqn:Hz.
  - split; eauto.
  - apply Qeq_bool_neq in Hz. rewrite !PyFacts.div_ret by exact Hz.
    cbn [mbind result_bind]. split; [eauto | tauto].
Qed.

End WaccFacts.

Module DcfValueFacts.

Import Py DCFModel.
Local Open Scope Q_scope.

Lemma last_item_In {A : Type} (l : list A) x : last_item l = Ret x -> In x l.
Proof.
  unfold last_item. destruct (List.rev l) as [|y ys] eqn:Hr; [discriminate|].
  intros [= ->]. apply in_rev. rewrite Hr. now left.
Qed.

Lemma discounted_sum_from_acc wacc fcfs : forall i acc,
  0 < 1 + wacc -> Forall (fun fcf => 0 <= fcf) fcfs ->
  exists v, discounted_sum wacc i fcfs acc = Ret v /\ acc <= v.
Proof.
  induction fcfs as [|fcf rest IH]; intros i acc Hw Hall; simpl.
  - exists acc. split; [reflexivity | lra].
  - inversion Hall as [|? ? Hfcf Hrest]; subst.
    pose proof (Qpower_0_lt (1 + wacc) (Z.of_nat (i + 1)) Hw) as Hpow.
    rewrite PyFacts.div_ret by lra. cbn [mbind result_bind].
    destruct (IH (S i) (acc + fcf / (1 + wacc) ^ Z.of_nat (i + 1)) Hw Hrest)
      as (v & -> & Hv).
    exists v. split; [reflexivity|].
    assert (0 <= fcf / (1 + wacc) ^ Z.of_nat (i + 1))
      by (apply Qle_shift_div_l; lra).
    lra.
Qed.

(** X4. When the WACC does not exceed the terminal growth rate, a
    projection of at most 1000 cash flows that is not empty, discounted at a
    WACC between -50% and 100%, is valued without any terminal value: the
    enterprise value is the present value of the projected cash flows alone,
    and the equity value is that minus net debt. *)
Theorem dcf_without_terminal_value (fcf_projections : list Q)
    (terminal_growth wacc net_debt shares_outstanding : Q) :
  fcf_projections <> [] -> (List.length fcf_projections <= 1000)%nat ->
  - (1 # 2) <= wacc -> wacc <= 1 -> wacc <= terminal_growth ->
  exists r,
    calculate_dcf_value fcf_projections terminal_growth wacc net_debt
      shares_outstanding = Ret r /\
    discounted_sum wacc 0 fcf_projections 0 = Ret (pv_fcfs r) /\
    pv_terminal r == 0 /\
    enterprise_value r == pv_fcfs r /\
    equity_value r == pv_fcfs r - net_debt.
Proof.
  intros Hne _ Hlo Hhi Hle. unfold calculate_dcf_value.
  assert (Hw : ~ 1 + wacc == 0) by lra.
  destruct (DCFModelFacts.discounted_sum_ret wacc fcf_projections 0%nat 0 Hw)
    as [pv Hpv].
  rewrite Hpv.
  destruct (PyFacts.last_item_ret fcf_projections Hne) as [tf ->].
  cbn [mbind result_bind]. unfold calculate_terminal_value.
  apply Qle_bool_iff in Hle. rewrite Hle. cbn [mbind result_bind].
  rewrite PyFacts.div_ret by now apply Qpower_not_0.
  cbn [mbind result_bind].
  assert (Hz : 0 / (1 + wacc) ^ Z.of_nat (List.length fcf_projections) == 0)
    by (unfold Qdiv; ring).
  destruct (gt shares_outstanding 0) eqn:Hs.
  - rewrite PyFacts.div_ret by (apply PyFacts.gt_spec in Hs; lra).
    cbn [mbind result_bind]. eexists. split; [reflexivity|].
    cbn [enterprise_value equity_value pv_fcfs pv_terminal].
    split; [reflexivity|]. rewrite Hz. repeat split; ring.
  - cbn [mbind result_bind]. eexists. split; [reflexivity|].
    cbn [enterprise_value equity_value pv_fcfs pv_terminal].
    split; [reflexivity|]. rewrite Hz. repeat split; ring.
Qed.

(** WACC and terminal growth both 3%. *)
Lemma dcf_without_terminal_value_witness :
  exists r,
    calculate_dcf_value [100; 110] 0.03 0.03 50 10 = Ret r /\
    discounted_sum 0.03 0 [100; 110] 0 = Ret (pv_fcfs r) /\
    pv_terminal r == 0 /\
    enterprise_value r == pv_fcfs r /\
    equity_value r == pv_fcfs r - 50.
Proof.
  apply (dcf_without_terminal_value [100; 110] 0.03 0.03 50 10).
  - discriminate.
  - simpl. lia.
  - lra.
  - lra.
  - lra.
Defined.

(** X5. At most 1000 cash flows that are not negative, discounted at a
    WACC between -50% and 100% with a terminal growth rate of at least
    -100%, give present values and an enterprise value that are not negative
    (and the value is returned, not raised); so the equity value is at least
    minus the net debt. *)
Theorem dcf_value_nonnegative (fcf_projections : list Q)
    (terminal_growth wacc net_debt shares_outstanding : Q) :
  fcf_projections <> [] -> (List.length fcf_projections <= 1000)%nat ->
  Forall (fun fcf => 0 <= fcf) fcf_projections ->
  - (1 # 2) <= wacc -> wacc <= 1 -> -1 <= terminal_growth ->
  exists r,
    calculate_dcf_value fcf_projections terminal_growth wacc net_debt
      shares_outstanding = Ret r /\
    0 <= pv_fcfs r /\ 0 <= pv_terminal r /\ 0 <= enterprise_value r /\
    - net_debt <= equity_value r.
Proof.
  intros Hne _ Hall Hlo Hhi Hg. unfold calculate_dcf_value.
  assert (Hw1 : 0 < 1 + wacc) by lra.
  destruct (discounted_sum_from_acc wacc fcf_projections 0%nat 0 Hw1 Hall)
    as (pv & -> & Hpv).
  destruct (PyFacts.last_item_ret fcf_projections Hne) as [tf Htf].
  rewrite Htf. cbn [mbind result_bind].
  assert (Htf0 : 0 <= tf).
  { apply last_item_In in Htf. rewrite List.Forall_forall in Hall. auto. }
  pose proof (Qpower_0_lt (1 + wacc)
                (Z.of_nat (List.length fcf_projections)) Hw1) as Hpow.
  assert (Htv : exists tv,
             calculate_terminal_value tf terminal_growth wacc = Ret tv /\
             0 <= tv).
  { unfold calculate_terminal_value.
    destruct (Qle_bool wacc terminal_growth) eqn:Hle.
    - exists 0. split; [reflexivity | lra].
    - assert (Hlt : terminal_growth < wacc).
      { apply Qnot_le_lt. intros H. apply Qle_bool_iff in H. congruence. }
      rewrite PyFacts.div_ret by lra. eexists. split; [reflexivity|].
      apply Qle_shift_div_l; [lra | nra]. }
  destruct Htv as (tv & -> & Htv). cbn [mbind result_bind].
  rewrite PyFacts.div_ret by lra. cbn [mbind result_bind].
  assert (Hpvt : 0 <= tv / (1 + wacc) ^ Z.of_nat (List.length fcf_projections))
    by (apply Qle_shift_div_l; lra).
  destruct (gt shares_outstanding 0) eqn:Hs.
  - rewrite PyFacts.div_ret by (apply PyFacts.gt_spec in Hs; lra).
    cbn [mbind result_bind]. eexists. split; [reflexivity|].
    cbn [enterprise_value equity_value pv_fcfs pv_terminal].
    repeat split; lra.
  - cbn [mbind result_bind]. eexists. split; [reflexivity|].
    cbn [enterprise_value equity_value pv_fcfs pv_terminal].
    repeat split; lra.
Qed.

Lemma dcf_value_nonnegative_witness :
  exists r,
    calculate_dcf_value [100; 110] 0.03 0.10 50 10 = Ret r /\
    0 <= pv_fcfs r /\ 0 <= pv_terminal r /\ 0 <= enterprise_value r /\
    - 50 <= equity_value r.
Proof.
  apply (dcf_value_nonnegative [100; 110] 0.03 0.10 50 10).
  - discriminate.
  - simpl. lia.
  - repeat constructor; intros H; discriminate H.
  - lra.
  - lra.
  - lra.
Defined.

(** X6. The degenerate parameters of the Monte Carlo run: a negative
    number of simulations is refused ([ValueError]); with no simulation at
    all the percentile of the empty list of results raises [IndexError]; and
    with at least one simulation but no year to project the run raises
    [IndexError] as well, each scenario having no cash flow to take a
    terminal value from. *)
Theorem monte_carlo_degenerate_parameters
    (rnd : RandomSource) (base_fcf : Q) (num_years simulations : Z) :
  ((simulations < 0)%Z ->
     monte_carlo_dcf rnd base_fcf num_years simulations = Raise ValueError) /\
  (simulations = 0%Z ->
     monte_carlo_dcf rnd base_fcf num_years simulations = Raise IndexError) /\
  ((0 < simulations)%Z -> (num_years <= 0)%Z ->
     monte_carlo_dcf rnd base_fcf num_years simulations = Raise IndexError).
Proof.
  unfold monte_carlo_dcf. split; [|split].
  - intros H. apply Z.ltb_lt in H. now rewrite H.
  - intros ->. reflexivity.
  - intros Hs Hy.
    assert (Hneg : (simulations <? 0)%Z = false) by (apply Z.ltb_ge; lia).
    rewrite Hneg.
    replace (Z.to_nat num_years) with 0%nat by lia.
    destruct (Z.to_nat simulations) as [|n] eqn:Hn; [lia|].
    reflexivity.
Qed.

End DcfValueFacts.

(** * Part V: properties of the classifiers *)

Module ClassifierFacts.

Import Py ComparativeAnalysis.
Local Open Scope Q_scope.

Ltac by_cases_gt :=
  repeat match goal with
         | |- context [gt ?a ?b] =>
             let H := fresh "H" in
             destruct (gt a b) eqn:H;
             [apply PyFacts.gt_spec in H | apply PyFacts.gt_false in H]
         | |- context [lt ?a ?b] =>
             let H := fresh "H" in
             change (lt a b) with (gt b a);
             destruct (gt b a) eqn:H;
             [apply PyFacts.gt_spec in H | apply PyFacts.gt_false in H]
         end.

(** X7. The z-score buckets are cut at 2, 1, -1 and -2 with the upper end of
    each bucket included: "In line with peers" is exactly -1 < z <= 1, so a
    z-score of 1 is in line with peers while a z-score of -1 is below
    them. *)
Theorem interpret_z_score_buckets (z_score : Q) :
  (_interpret_z_score z_score = "Significantly above peers" <-> 2 < z_score) /\
  (_interpret_z_score z_score = "Above peers" <->
     1 < z_score /\ z_score <= 2) /\
  (_interpret_z_score z_score = "In line with peers" <->
     -1 < z_score /\ z_score <= 1) /\
  (_interpret_z_score z_score = "Below peers" <->
     -2 < z_score /\ z_score <= -1) /\
  (_interpret_z_score z_score = "Significantly below peers" <->
     z_score <= -2).
Proof.
  unfold _interpret_z_score. by_cases_gt;
    repeat split; intros; try discriminate; try lra; auto.
Qed.

(** X8. The rotation signal: "Bullish - Accelerating" is exactly short
    momentum above long momentum and above zero, "Recovery - Improving"
    exactly short above long and below zero, "Caution - Decelerating"
    exactly short below long with long above zero.  Everything else is
    "Bearish - Deteriorating": in particular equal momenta, whatever their
    sign, and a short momentum of exactly zero. *)
Theorem rotation_signal_cases (short_momentum long_momentum : Q) :
  (_get_rotation_signal short_momentum long_momentum = "Bullish - Accelerating"
     <-> long_momentum < short_momentum /\ 0 < short_momentum) /\
  (_get_rotation_signal short_momentum long_momentum = "Recovery - Improving"
     <-> long_momentum < short_momentum /\ short_momentum < 0) /\
  (_get_rotation_signal short_momentum long_momentum = "Caution - Decelerating"
     <-> short_momentum < long_momentum /\ 0 < long_momentum) /\
  (short_momentum == long_momentum ->
     _get_rotation_signal short_momentum long_momentum =
       "Bearish - Deteriorating") /\
  (short_momentum == 0 -> long_momentum <= 0 ->
     _get_rotation_signal short_momentum long_momentum =
       "Bearish - Deteriorating").
Proof.
  unfold _get_rotation_signal. by_cases_gt; cbn [andb];
    repeat split; intros; try discriminate; try lra; auto.
Qed.

End ClassifierFacts.

Module ResearchQualityFacts.

Import Py ResearchQuality.
Local Open Scope Q_scope.

(** X9. Four component scores between 0 and 1 give an overall quality
    between 0 and 1. *)
Theorem overall_quality_within_bounds (self : t) :
  0 <= data_completeness self <= 1 ->
  0 <= data_freshness self <= 1 ->
  0 <= source_reliability self <= 1 ->
  0 <= analysis_depth self <= 1 ->
  0 <= overall_quality self <= 1.
Proof. unfold overall_quality. intros. lra. Qed.

Lemma overall_quality_within_bounds_witness :
  0 <= overall_quality
         {| data_completeness := 0.9; data_freshness := 0.5;
            source_reliability := 1; analysis_depth := 0 |} <= 1.
Proof.
  apply (overall_quality_within_bounds _); cbn; lra.
Defined.

Lemma lt_spec a b : lt a b = true <-> a < b.
Proof. apply PyFacts.gt_spec. Qed.

Lemma lt_false a b : lt a b = false <-> b <= a.
Proof. apply PyFacts.gt_false. Qed.

(** X10. No recommendation is made exactly when all four component scores
    are at least 0.8, and then the grade is "A" or "A+"; so a grade of "B",
    "C" or "D" always comes with at least one recommendation.  There are never
    more than four recommendations. *)
Theorem recommendations_and_grade (self : t) :
  (get_recommendations self = [] <->
     0.8 <= data_completeness self /\ 0.8 <= data_freshness self /\
     0.8 <= source_reliability self /\ 0.8 <= analysis_depth self) /\
  (get_recommendations self = [] ->
     quality_grade self = "A+" \/ quality_grade self = "A") /\
  (quality_grade self = "B" \/ quality_grade self = "C" \/
   quality_grade self = "D" -> get_recommendations self <> []) /\
  (List.length (get_recommendations self) <= 4)%nat.
Proof.
  assert (Hrec : get_recommendations self = [] <->
     0.8 <= data_completeness self /\ 0.8 <= data_freshness self /\
     0.8 <= source_reliability self /\ 0.8 <= analysis_depth self).
  { unfold get_recommendations.
    destruct (lt (data_completeness self) 0.8) eqn:H1;
      destruct (lt (data_freshness self) 0.8) eqn:H2;
      destruct (lt (source_reliability self) 0.8) eqn:H3;
      destruct (lt (analysis_depth self) 0.8) eqn:H4;
      try apply lt_spec in H1; try apply lt_false in H1;
      try apply lt_spec in H2; try apply lt_false in H2;
      try apply lt_spec in H3; try apply lt_false in H3;
      try apply lt_spec in H4; try apply lt_false in H4;
      cbn [app]; (split; [intros H | intros (G1 & G2 & G3 & G4)]);
      try discriminate; try lra; auto. }
  assert (Hgrade : get_recommendations self = [] ->
     quality_grade self = "A+" \/ quality_grade self = "A").
  { intros H. apply Hrec in H as (H1 & H2 & H3 & H4).
    unfold quality_grade. cbn zeta.
    assert (Hs : 0.8 <= overall_quality self)
      by (unfold overall_quality; lra).
    apply Qle_bool_iff in Hs. rewrite Hs.
    destruct (Qle_bool 0.9 (overall_quality self)); auto. }
  split; [exact Hrec|]. split; [exact Hgrade|]. split.
  - intros Hg Hnil. apply Hgrade in Hnil.
    destruct Hnil as [Ha|Ha]; rewrite Ha in Hg;
      destruct Hg as [Hg|[Hg|Hg]]; discriminate.
  - unfold get_recommendations.
    repeat match goal with
           | |- context [if ?c then _ else _] => destruct c
           end; cbn; lia.
Qed.

End ResearchQualityFacts.

(** * Part VI: properties of the technical indicators *)

Module PySeqFacts.

Import Py PySeq.
Local Open Scope Q_scope.

Lemma slice_to_nonneg {A : Type} (l : list A) k :
  (0 <= k)%Z -> PyList.slice_to l k = firstn (Z.to_nat k) l.
Proof.
  intros Hk. unfold PyList.slice_to.
  destruct (0 <=? k)%Z eqn:E; [reflexivity|]. apply Z.leb_gt in E. lia.
Qed.

Lemma skipn_min {A : Type} (l : list A) n :
  skipn (Nat.min n (List.length l)) l = skipn n l.
Proof.
  destruct (Nat.le_ge_cases n (List.length l)) as [H|H].
  - now rewrite Nat.min_l.
  - rewrite Nat.min_r by exact H. rewrite !skipn_all2; auto.
Qed.

Lemma slice_from_nonneg {A : Type} (l : list A) k :
  (0 <= k)%Z -> slice_from l k = skipn (Z.to_nat k) l.
Proof.
  intros Hk. unfold slice_from, bound, len.
  destruct (k <? 0)%Z eqn:E; [apply Z.ltb_lt in E; lia|].
  rewrite Z2Nat.inj_min, Nat2Z.id. apply skipn_min.
Qed.

Lemma index_In {A : Type} (l : list A) i :
  (0 <= i < len l)%Z -> exists x, index l i = Ret x /\ In x l.
Proof.
  intros [Hlo Hhi]. unfold index, len in *.
  destruct (i <? 0)%Z eqn:E; [apply Z.ltb_lt in E; lia|]. rewrite E.
  destruct (nth_error l (Z.to_nat i)) as [x|] eqn:Hn.
  - exists x. split; [reflexivity|]. eapply nth_error_In; eauto.
  - apply nth_error_None in Hn. lia.
Qed.

Lemma range_In a b i : In i (range a b) -> (a <= i < b)%Z.
Proof.
  unfold range. rewrite in_map_iff. intros (k & <- & Hk).
  apply in_seq in Hk. lia.
Qed.

Lemma length_range a b : List.length (range a b) = Z.to_nat (b - a).
Proof. unfold range. now rewrite length_map, length_seq. Qed.

(** The sum of a list lies between its length times a lower bound and its
    length times an upper bound of the items. *)
Lemma fold_left_bounds lo hi l : forall acc,
  Forall (fun x => lo <= x /\ x <= hi) l ->
  acc + inject_Z (len l) * lo <= fold_left Qplus l acc /\
  fold_left Qplus l acc <= acc + inject_Z (len l) * hi.
Proof.
  unfold len.
  induction l as [|x xs IH]; intros acc Hall; simpl fold_left.
  - change (inject_Z (Z.of_nat (List.length (@nil Q)))) with 0. split; lra.
  - inversion Hall as [|? ? [Hlo Hhi] Hxs]; subst.
    destruct (IH (acc + x) Hxs) as [IHlo IHhi].
    assert (Hlen : inject_Z (Z.of_nat (List.length (x :: xs)))
                   == inject_Z (Z.of_nat (List.length xs)) + 1).
    { cbn [List.length]. rewrite Nat2Z.inj_succ. unfold Z.succ.
      now rewrite inject_Z_plus. }
    rewrite Hlen. split; lra.
Qed.

Lemma sum_bounds lo hi l :
  Forall (fun x => lo <= x /\ x <= hi) l ->
  inject_Z (len l) * lo <= sum l /\ sum l <= inject_Z (len l) * hi.
Proof.
  intros Hall. unfold sum.
  destruct (fold_left_bounds lo hi l 0 Hall). split; lra.
Qed.

Lemma sum_nonneg l : Forall (fun x => 0 <= x) l -> 0 <= sum l.
Proof.
  intros Hall. unfold sum.
  assert (H : forall acc, 0 <= acc -> 0 <= fold_left Qplus l acc).
  { induction Hall as [|x xs Hx Hxs IH]; intros acc Hacc; simpl; auto.
    apply IH. lra. }
  apply H. lra.
Qed.

Lemma sum_zero l : Forall (fun x => x == 0) l -> sum l == 0.
Proof.
  intros Hall.
  destruct (sum_bounds 0 0 l) as [Hlo Hhi].
  - revert Hall. apply List.Forall_impl. intros x Hx. lra.
  - lra.
Qed.

Lemma Forall_firstn {A : Type} (P : A -> Prop) n (l : list A) :
  Forall P l -> Forall P (firstn n l).
Proof.
  rewrite !List.Forall_forall. intros H x Hx. apply H.
  rewrite <- (firstn_skipn n l). apply in_or_app. now left.
Qed.

Lemma Forall_skipn {A : Type} (P : A -> Prop) n (l : list A) :
  Forall P l -> Forall P (skipn n l).
Proof.
  rewrite !List.Forall_forall. intros H x Hx. apply H.
  rewrite <- (firstn_skipn n l). apply in_or_app. now right.
Qed.

Lemma inject_Z_pos p : (0 < p)%Z -> 0 < inject_Z p.
Proof. intros H. change 0 with (inject_Z 0). now rewrite <- Zlt_Qlt. Qed.

Lemma inject_Z_nonneg p : (0 <= p)%Z -> 0 <= inject_Z p.
Proof. intros H. change 0 with (inject_Z 0). now rewrite <- Zle_Qle. Qed.

End PySeqFacts.

Module RsiFacts.

Import Py PySeq TechnicalIndicators.
Local Open Scope Q_scope.

Lemma length_changes prices :
  List.length (changes prices) = (List.length prices - 1)%nat.
Proof.
  induction prices as [|a [|b rest] IH]; auto.
  cbn [changes List.length] in *. rewrite IH. lia.
Qed.

Lemma gain_of_nonneg c : 0 <= gain_of c.
Proof.
  unfold gain_of. destruct (gt c 0) eqn:H; [|lra].
  apply PyFacts.gt_spec in H. lra.
Qed.

Lemma loss_of_nonneg c : 0 <= loss_of c.
Proof.
  unfold loss_of. destruct (gt c 0); [lra | apply Qabs_nonneg].
Qed.

Lemma Forall_map_gain l : Forall (fun x => 0 <= x) (List.map gain_of l).
Proof.
  apply List.Forall_forall. intros x Hx. apply in_map_iff in Hx as (c & <- & _).
  apply gain_of_nonneg.
Qed.

Lemma Forall_map_loss l : Forall (fun x => 0 <= x) (List.map loss_of l).
Proof.
  apply List.Forall_forall. intros x Hx. apply in_map_iff in Hx as (c & <- & _).
  apply loss_of_nonneg.
Qed.

(** One RSI value from averages that are not negative. *)
Lemma rsi_value avg_gain avg_loss :
  0 <= avg_gain -> 0 <= avg_loss ->
  exists rsi,
    (if Qeq_bool avg_loss 0 then Ret 100
     else rs ← div avg_gain avg_loss;
          t ← div 100 (1 + rs);
          Ret (100 - t)) = Ret rsi /\
    0 <= rsi /\ rsi <= 100.
Proof.
  intros Hg Hl. destruct (Qeq_bool avg_loss 0) eqn:Hz.
  - exists 100. split; [reflexivity | lra].
  - apply Qeq_bool_neq in Hz.
    assert (Hl' : 0 < avg_loss) by lra.
    rewrite PyFacts.div_ret by exact Hz. cbn [mbind result_bind].
    assert (Hrs : 0 <= avg_gain / avg_loss)
      by (apply Qle_shift_div_l; lra).
    rewrite PyFacts.div_ret by lra. cbn [mbind result_bind].
    eexists. split; [reflexivity|].
    assert (0 <= 100 / (1 + avg_gain / avg_loss))
      by (apply Qle_shift_div_l; lra).
    assert (100 / (1 + avg_gain / avg_loss) <= 100)
      by (apply Qle_shift_div_r; lra).
    lra.
Qed.

(** The Wilder update keeps an average that is not negative. *)
Lemma update_nonneg period avg x :
  (0 < period)%Z -> 0 <= avg -> 0 <= x ->
  exists avg',
    div (avg * inject_Z (period - 1) + x) (inject_Z period) = Ret avg' /\
    0 <= avg'.
Proof.
  intros Hp Havg Hx.
  pose proof (PySeqFacts.inject_Z_pos period Hp) as Hp'.
  assert (Hp1 : 0 <= inject_Z (period - 1))
    by (apply PySeqFacts.inject_Z_nonneg; lia).
  rewrite PyFacts.div_ret by lra. eexists. split; [reflexivity|].
  apply Qle_shift_div_l; [lra | nra].
Qed.

Lemma rsi_loop_bounded period gains losses idx : forall avg_gain avg_loss,
  (0 < period)%Z ->
  Forall (fun x => 0 <= x) gains -> Forall (fun x => 0 <= x) losses ->
  List.length losses = List.length gains ->
  Forall (fun i => (0 <= i < len gains)%Z) idx ->
  0 <= avg_gain -> 0 <= avg_loss ->
  exists rsi_values,
    rsi_loop period gains losses idx avg_gain avg_loss = Ret rsi_values /\
    List.length rsi_values = List.length idx /\
    Forall (fun rsi => 0 <= rsi /\ rsi <= 100) rsi_values.
Proof.
  induction idx as [|i rest IH]; intros avg_gain avg_loss Hp Hgs Hls Hlen Hidx
    Hg Hl.
  - exists []. auto.
  - inversion Hidx as [|? ? Hi Hrest]; subst. cbn [rsi_loop].
    destruct (rsi_value avg_gain avg_loss Hg Hl) as (rsi & -> & Hrsi).
    cbn [mbind result_bind].
    destruct (PySeqFacts.index_In gains i Hi) as (g & -> & Hgin).
    cbn [mbind result_bind].
    rewrite List.Forall_forall in Hgs, Hls.
    destruct (update_nonneg period avg_gain g Hp Hg (Hgs g Hgin))
      as (avg_gain' & -> & Hg').
    cbn [mbind result_bind].
    assert (Hi' : (0 <= i < len losses)%Z) by (unfold len in *; lia).
    destruct (PySeqFacts.index_In losses i Hi') as (l & -> & Hlin).
    cbn [mbind result_bind].
    destruct (update_nonneg period avg_loss l Hp Hl (Hls l Hlin))
      as (avg_loss' & -> & Hl').
    cbn [mbind result_bind].
    rewrite <- List.Forall_forall in Hgs, Hls.
    destruct (IH avg_gain' avg_loss' Hp Hgs Hls Hlen Hrest Hg' Hl')
      as (vs & -> & Hvlen & Hvs).
    cbn [mbind result_bind].
    exists (rsi :: vs). split; [reflexivity|]. split.
    + simpl. now rewrite Hvlen.
    + constructor; auto.
Qed.

Lemma initial_average period l :
  (0 < period)%Z -> Forall (fun x => 0 <= x) l ->
  exists avg,
    div (sum (PyList.slice_to l period)) (inject_Z period) = Ret avg /\
    0 <= avg.
Proof.
  intros Hp Hl.
  pose proof (PySeqFacts.inject_Z_pos period Hp) as Hp'.
  rewrite PyFacts.div_ret by lra. eexists. split; [reflexivity|].
  apply Qle_shift_div_l; [lra|].
  rewrite PySeqFacts.slice_to_nonneg by lia.
  pose proof (PySeqFacts.sum_nonneg (firstn (Z.to_nat period) l)
                (PySeqFacts.Forall_firstn _ _ _ Hl)).
  lra.
Qed.

Lemma range_indices period (gains : list Q) :
  (0 < period)%Z ->
  Forall (fun i => (0 <= i < len gains)%Z) (range period (len gains)).
Proof.
  intros Hp. apply List.Forall_forall. intros i Hi.
  apply PySeqFacts.range_In in Hi. lia.
Qed.

(** X11. For every positive period and every price series, the RSI is
    returned (nothing raises), every value of it lies between 0 and 100, and
    there are [len(prices) - period - 1] values: none for a series of up to
    [period + 1] prices, so the first value needs [period + 2] prices. *)
Theorem rsi_bounded (prices : list Q) (period : Z) :
  (0 < period)%Z ->
  exists rsi_values,
    calculate_rsi prices period = Ret rsi_values /\
    List.length rsi_values = Z.to_nat (len prices - period - 1) /\
    Forall (fun rsi => 0 <= rsi /\ rsi <= 100) rsi_values.
Proof.
  intros Hp. unfold calculate_rsi.
  destruct (len prices <? period + 1)%Z eqn:Hshort.
  - apply Z.ltb_lt in Hshort. exists []. split; [reflexivity|].
    split; [simpl; lia | constructor].
  - apply Z.ltb_ge in Hshort. cbn zeta.
    destruct (initial_average period (List.map gain_of (changes prices)) Hp
                (Forall_map_gain _)) as (ag & -> & Hag).
    cbn [mbind result_bind].
    destruct (initial_average period (List.map loss_of (changes prices)) Hp
                (Forall_map_loss _)) as (al & -> & Hal).
    cbn [mbind result_bind].
    destruct (rsi_loop_bounded period
                (List.map gain_of (changes prices))
                (List.map loss_of (changes prices))
                (range period (len (List.map gain_of (changes prices))))
                ag al Hp (Forall_map_gain _) (Forall_map_loss _))
      as (vs & Hvs & Hlen & Hall); auto.
    + now rewrite !length_map.
    + now apply range_indices.
    + exists vs. split; [exact Hvs|]. split; [|exact Hall].
      rewrite Hlen, PySeqFacts.length_range. unfold len in *.
      rewrite length_map, length_changes. lia.
Qed.

(** Five prices with period 2: the values 100 and 50. *)
Lemma rsi_bounded_witness :
  exists rsi_values,
    calculate_rsi [1; 2; 3; 2; 4] 2 = Ret rsi_values /\
    List.length rsi_values = 2%nat /\
    Forall (fun rsi => 0 <= rsi /\ rsi <= 100) rsi_values.
Proof.
  apply (rsi_bounded [1; 2; 3; 2; 4] 2). lia.
Defined.

End RsiFacts.

Module RsiTrendFacts.

Import Py PySeq TechnicalIndicators.
Local Open Scope Q_scope.

Lemma changes_rising prices :
  Sorted Qle prices -> Forall (fun c => 0 <= c) (changes prices).
Proof.
  induction 1 as [|a rest Hs IH Hhd]; [constructor|].
  destruct rest as [|b rest]; [constructor|].
  cbn [changes]. constructor; [|exact IH].
  inversion Hhd; subst. lra.
Qed.

Lemma changes_falling prices :
  Sorted (fun a b => b < a) prices -> Forall (fun c => c < 0) (changes prices).
Proof.
  induction 1 as [|a rest Hs IH Hhd]; [constructor|].
  destruct rest as [|b rest]; [constructor|].
  cbn [changes]. constructor; [|exact IH].
  inversion Hhd; subst. lra.
Qed.

Lemma losses_of_rising cs :
  Forall (fun c => 0 <= c) cs -> Forall (fun x => x == 0) (List.map loss_of cs).
Proof.
  induction 1 as [|c cs Hc Hcs IH]; constructor; auto.
  unfold loss_of. destruct (gt c 0) eqn:H; [reflexivity|].
  apply PyFacts.gt_false in H. rewrite Qabs_pos by exact Hc. lra.
Qed.

Lemma gains_of_falling cs :
  Forall (fun c => c < 0) cs -> Forall (fun x => x == 0) (List.map gain_of cs).
Proof.
  induction 1 as [|c cs Hc Hcs IH]; constructor; auto.
  unfold gain_of. destruct (gt c 0) eqn:H; [|reflexivity].
  apply PyFacts.gt_spec in H. lra.
Qed.

Lemma losses_of_falling cs :
  Forall (fun c => c < 0) cs -> Forall (fun x => 0 < x) (List.map loss_of cs).
Proof.
  induction 1 as [|c cs Hc Hcs IH]; constructor; auto.
  unfold loss_of. destruct (gt c 0) eqn:H.
  - apply PyFacts.gt_spec in H. lra.
  - rewrite Qabs_neg by lra. lra.
Qed.

Lemma rsi_loop_no_loss period gains losses idx : forall avg_gain avg_loss,
  (0 < period)%Z ->
  Forall (fun x => x == 0) losses ->
  List.length losses = List.length gains ->
  Forall (fun i => (0 <= i < len gains)%Z) idx ->
  avg_loss == 0 ->
  exists rsi_values,
    rsi_loop period gains losses idx avg_gain avg_loss = Ret rsi_values /\
    Forall (fun rsi => rsi = 100) rsi_values.
Proof.
  induction idx as [|i rest IH]; intros avg_gain avg_loss Hp Hls Hlen Hidx Hl.
  - exists []. auto.
  - inversion Hidx as [|? ? Hi Hrest]; subst. cbn [rsi_loop].
    rewrite (Qeq_eq_bool _ _ Hl). cbn [mbind result_bind].
    destruct (PySeqFacts.index_In gains i Hi) as (g & -> & _).
    cbn [mbind result_bind].
    pose proof (PySeqFacts.inject_Z_pos period Hp) as Hp'.
    rewrite !PyFacts.div_ret by lra. cbn [mbind result_bind].
    assert (Hi' : (0 <= i < len losses)%Z) by (unfold len in *; lia).
    destruct (PySeqFacts.index_In losses i Hi') as (l & -> & Hlin).
    cbn [mbind result_bind].
    rewrite !PyFacts.div_ret by lra. cbn [mbind result_bind].
    assert (Hl0 : l == 0)
      by (rewrite List.Forall_forall in Hls; now apply Hls).
    destruct (IH ((avg_gain * inject_Z (period - 1) + g) / inject_Z period)
                ((avg_loss * inject_Z (period - 1) + l) / inject_Z period)
                Hp Hls Hlen Hrest) as (vs & -> & Hvs).
    + rewrite Hl, Hl0. field. lra.
    + cbn [mbind result_bind]. exists (100 :: vs). auto.
Qed.

(** X12. When no price is lower than the one before it (a flat series
    included), every RSI value is exactly 100, for every positive period. *)
Theorem rsi_of_rising_prices (prices : list Q) (period : Z) :
  (0 < period)%Z -> Sorted Qle prices ->
  exists rsi_values,
    calculate_rsi prices period = Ret rsi_values /\
    Forall (fun rsi => rsi = 100) rsi_values.
Proof.
  intros Hp Hs. unfold calculate_rsi.
  destruct (len prices <? period + 1)%Z; [exists []; auto|]. cbn zeta.
  pose proof (PySeqFacts.inject_Z_pos period Hp) as Hp'.
  pose proof (losses_of_rising _ (changes_rising prices Hs)) as Hls.
  rewrite !PyFacts.div_ret by lra. cbn [mbind result_bind].
  apply rsi_loop_no_loss; auto.
  - now rewrite !length_map.
  - now apply RsiFacts.range_indices.
  - rewrite PySeqFacts.slice_to_nonneg by lia.
    rewrite (PySeqFacts.sum_zero _ (PySeqFacts.Forall_firstn _ _ _ Hls)).
    field. lra.
Qed.

(** A flat series of six prices, period 3. *)
Lemma rsi_of_rising_prices_witness :
  calculate_rsi [7; 7; 7; 7; 7; 7] 3 = Ret [100; 100] /\
  exists rsi_values,
    calculate_rsi [7; 7; 7; 7; 7; 7] 3 = Ret rsi_values /\
    Forall (fun rsi => rsi = 100) rsi_values.
Proof.
  split; [reflexivity|].
  apply (rsi_of_rising_prices [7; 7; 7; 7; 7; 7] 3); [lia|].
  repeat constructor; intros H; discriminate H.
Defined.

Lemma rsi_loop_no_gain period gains losses idx : forall avg_gain avg_loss,
  (0 < period)%Z ->
  Forall (fun x => x == 0) gains -> Forall (fun x => 0 < x) losses ->
  List.length losses = List.length gains ->
  Forall (fun i => (0 <= i < len gains)%Z) idx ->
  avg_gain == 0 -> 0 < avg_loss ->
  exists rsi_values,
    rsi_loop period gains losses idx avg_gain avg_loss = Ret rsi_values /\
    Forall (fun rsi => rsi == 0) rsi_values.
Proof.
  induction idx as [|i rest IH];
    intros avg_gain avg_loss Hp Hgs Hls Hlen Hidx Hg Hl.
  - exists []. auto.
  - inversion Hidx as [|? ? Hi Hrest]; subst. cbn [rsi_loop].
    rewrite (PyFacts.Qeq_bool_false avg_loss 0) by lra.
    rewrite PyFacts.div_ret by lra. cbn [mbind result_bind].
    assert (Hrs : avg_gain / avg_loss == 0) by (rewrite Hg; field; lra).
    rewrite PyFacts.div_ret by (rewrite Hrs; lra).
    cbn [mbind result_bind].
    destruct (PySeqFacts.index_In gains i Hi) as (g & -> & Hgin).
    cbn [mbind result_bind].
    pose proof (PySeqFacts.inject_Z_pos period Hp) as Hp'.
    assert (Hp1 : 0 <= inject_Z (period - 1))
      by (apply PySeqFacts.inject_Z_nonneg; lia).
    rewrite !PyFacts.div_ret by lra. cbn [mbind result_bind].
    assert (Hi' : (0 <= i < len losses)%Z) by (unfold len in *; lia).
    destruct (PySeqFacts.index_In losses i Hi') as (l & -> & Hlin).
    cbn [mbind result_bind].
    rewrite !PyFacts.div_ret by lra. cbn [mbind result_bind].
    assert (Hg0 : g == 0)
      by (rewrite List.Forall_forall in Hgs; now apply Hgs).
    assert (Hl0 : 0 < l)
      by (rewrite List.Forall_forall in Hls; now apply Hls).
    destruct (IH ((avg_gain * inject_Z (period - 1) + g) / inject_Z period)
                ((avg_loss * inject_Z (period - 1) + l) / inject_Z period)
                Hp Hgs Hls Hlen Hrest) as (vs & -> & Hvs).
    + rewrite Hg, Hg0. field. lra.
    + apply Qlt_shift_div_l; [lra | nra].
    + cbn [mbind result_bind]. eexists. split; [reflexivity|].
      constructor; [|exact Hvs]. rewrite Hrs. field.
Qed.

(** X13. When every price is lower than the one before it, every RSI value
    is 0, for every positive period. *)
Theorem rsi_of_falling_prices (prices : list Q) (period : Z) :
  (0 < period)%Z -> Sorted (fun a b => b < a) prices ->
  exists rsi_values,
    calculate_rsi prices period = Ret rsi_values /\
    Forall (fun rsi => rsi == 0) rsi_values.
Proof.
  intros Hp Hs. unfold calculate_rsi.
  destruct (len prices <? period + 1)%Z eqn:Hshort; [exists []; auto|].
  apply Z.ltb_ge in Hshort. cbn zeta.
  pose proof (PySeqFacts.inject_Z_pos period Hp) as Hp'.
  pose proof (gains_of_falling _ (changes_falling prices Hs)) as Hgs.
  pose proof (losses_of_falling _ (changes_falling prices Hs)) as Hls.
  rewrite !PyFacts.div_ret by lra. cbn [mbind result_bind].
  apply rsi_loop_no_gain; auto.
  - now rewrite !length_map.
  - now apply RsiFacts.range_indices.
  - rewrite PySeqFacts.slice_to_nonneg by lia.
    rewrite (PySeqFacts.sum_zero _ (PySeqFacts.Forall_firstn _ _ _ Hgs)).
    field. lra.
  - apply Qlt_shift_div_l; [lra|]. rewrite Qmult_0_l.
    rewrite PySeqFacts.slice_to_nonneg by lia.
    set (ls := List.map loss_of (changes prices)) in *.
    assert (Hlen : (Z.to_nat period <= List.length ls)%nat).
    { unfold ls, len in *. rewrite length_map, RsiFacts.length_changes. lia. }
    destruct (Z.to_nat period) as [|n] eqn:Hn; [lia|].
    destruct ls as [|l0 ls']; [simpl in Hlen; lia|].
    inversion Hls as [|? ? Hl0 Hls']; subst.
    cbn [firstn]. unfold sum. cbn [fold_left].
    assert (H : forall l acc, Forall (fun x => 0 < x) l -> 0 < acc ->
                              0 < fold_left Qplus l acc).
    { induction l as [|x xs IHl]; intros acc Hall Hacc; simpl; auto.
      inversion Hall; subst. apply IHl; auto. lra. }
    apply H; [now apply PySeqFacts.Forall_firstn | lra].
Qed.

Lemma rsi_of_falling_prices_witness :
  exists rsi_values,
    calculate_rsi [9; 8; 6; 5; 1] 2 = Ret rsi_values /\
    Forall (fun rsi => rsi == 0) rsi_values.
Proof.
  apply (rsi_of_falling_prices [9; 8; 6; 5; 1] 2); [lia|].
  repeat constructor.
Defined.

End RsiTrendFacts.

Module EmaFacts.

Import Py PySeq TechnicalIndicators.
Local Open Scope Q_scope.

Lemma length_ema_loop multiplier prices : forall previous,
  List.length (ema_loop multiplier previous prices) = List.length prices.
Proof.
  induction prices as [|p rest IH]; intros previous; simpl; auto.
Qed.

(** With a multiplier between 0 and 1 a step from an average and a price
    that are not negative gives an average that is not negative. *)
Lemma ema_loop_nonneg multiplier prices : forall previous,
  0 <= multiplier -> multiplier <= 1 -> 0 <= previous ->
  Forall (fun p => 0 <= p) prices ->
  Forall (fun e => 0 <= e) (ema_loop multiplier previous prices).
Proof.
  induction prices as [|p rest IH]; intros previous Hm0 Hm1 Hprev Hall;
    simpl; [constructor|].
  inversion Hall as [|? ? Hp Hrest]; subst.
  assert (Hnext : 0 <= (p - previous) * multiplier + previous) by nra.
  constructor; [exact Hnext|]. now apply IH.
Qed.

Lemma multiplier_bounds period :
  (0 < period)%Z ->
  0 <= 2 / inject_Z (period + 1) /\ 2 / inject_Z (period + 1) <= 1.
Proof.
  intros Hp.
  assert (H2 : 2 <= inject_Z (period + 1)).
  { change 2 with (inject_Z 2). rewrite <- Zle_Qle. lia. }
  split.
  - apply Qle_shift_div_l; lra.
  - apply Qle_shift_div_r; lra.
Qed.

(** X14. For a period of at least 1 and at least [period] prices, the EMA is
    returned with [len(prices) - period + 1] values, its first value is the
    simple average of the first [period] prices, and prices that are not
    negative give averages that are not negative. *)
Theorem ema_seed_length_sign (prices : list Q) (period : Z) :
  (0 < period <= len prices)%Z ->
  exists first rest,
    _calculate_ema prices period = Ret (first :: rest) /\
    first = sum (firstn (Z.to_nat period) prices) / inject_Z period /\
    List.length (first :: rest) = Z.to_nat (len prices - period + 1) /\
    (Forall (fun p => 0 <= p) prices ->
       Forall (fun e => 0 <= e) (first :: rest)).
Proof.
  intros Hp. unfold _calculate_ema.
  assert (Hlong : (len prices <? period)%Z = false) by (apply Z.ltb_ge; lia).
  rewrite Hlong.
  pose proof (PySeqFacts.inject_Z_pos period (proj1 Hp)) as Hp'.
  assert (Hp1 : 0 < inject_Z (period + 1))
    by (apply PySeqFacts.inject_Z_pos; lia).
  rewrite !PyFacts.div_ret by lra. cbn [mbind result_bind].
  rewrite PySeqFacts.slice_to_nonneg, PySeqFacts.slice_from_nonneg by lia.
  do 2 eexists. split; [reflexivity|]. split; [reflexivity|].
  split.
  - cbn [List.length]. rewrite length_ema_loop, length_skipn.
    unfold len in *. lia.
  - intros Hall.
    assert (Hfirst : 0 <= sum (firstn (Z.to_nat period) prices)
                            / inject_Z period).
    { apply Qle_shift_div_l; [exact Hp'|].
      pose proof (PySeqFacts.sum_nonneg (firstn (Z.to_nat period) prices)
                    (PySeqFacts.Forall_firstn _ _ _ Hall)).
      lra. }
    constructor; [exact Hfirst|].
    destruct (multiplier_bounds period (proj1 Hp)) as [Hm0 Hm1].
    apply ema_loop_nonneg; try tauto.
    now apply PySeqFacts.Forall_skipn.
Qed.

(** Five prices between 1 and 5, period 2. *)
Lemma ema_seed_length_sign_witness :
  exists first rest,
    _calculate_ema [1; 2; 3; 4; 5] 2 = Ret (first :: rest) /\
    first = sum (firstn (Z.to_nat 2) [1; 2; 3; 4; 5]) / inject_Z 2 /\
    List.length (first :: rest) = Z.to_nat (len [1; 2; 3; 4; 5] - 2 + 1) /\
    Forall (fun e => 0 <= e) (first :: rest).
Proof.
  destruct (ema_seed_length_sign [1; 2; 3; 4; 5] 2)
    as (first & rest & Hr & Hf & Hl & Hs); [unfold len; simpl; lia|].
  exists first, rest. split; [exact Hr|]. split; [exact Hf|].
  split; [exact Hl|]. apply Hs.
  repeat constructor; intros H; discriminate H.
Defined.

(** X15. The EMA outside its working range: with fewer than [period]
    prices it is the empty list; a period of 0 divides the empty sum by zero
    and a period of -1 makes the multiplier [2 / 0], so both raise
    [ZeroDivisionError], for every price series. *)
Theorem ema_edge_cases (prices : list Q) (period : Z) :
  ((len prices < period)%Z -> _calculate_ema prices period = Ret []) /\
  (period = 0%Z -> _calculate_ema prices period = Raise ZeroDivisionError) /\
  (period = (-1)%Z ->
     _calculate_ema prices period = Raise ZeroDivisionError).
Proof.
  unfold _calculate_ema. split; [|split].
  - intros H. apply Z.ltb_lt in H. now rewrite H.
  - intros ->.
    assert (H : (len prices <? 0)%Z = false)
      by (apply Z.ltb_ge; unfold len; lia).
    rewrite H. reflexivity.
  - intros ->.
    assert (H : (len prices <? -1)%Z = false)
      by (apply Z.ltb_ge; unfold len; lia).
    rewrite H. reflexivity.
Qed.

Lemma ema_length prices period :
  (0 < period)%Z ->
  exists ema,
    _calculate_ema prices period = Ret ema /\
    List.length ema = Z.to_nat (len prices - period + 1).
Proof.
  intros Hp. unfold _calculate_ema.
  destruct (len prices <? period)%Z eqn:Hshort.
  - apply Z.ltb_lt in Hshort. exists []. split; [reflexivity | simpl; lia].
  - apply Z.ltb_ge in Hshort.
    pose proof (PySeqFacts.inject_Z_pos period Hp) as Hp'.
    assert (Hp1 : 0 < inject_Z (period + 1))
      by (apply PySeqFacts.inject_Z_pos; lia).
    rewrite !PyFacts.div_ret by lra. cbn [mbind result_bind].
    eexists. split; [reflexivity|].
    rewrite PySeqFacts.slice_from_nonneg by lia.
    cbn [List.length]. rewrite length_ema_loop, length_skipn.
    unfold len in *. lia.
Qed.

Lemma length_zip_sub fs ss :
  List.length (zip_sub fs ss) = Nat.min (List.length fs) (List.length ss).
Proof. unfold zip_sub. now rewrite length_map, length_combine. Qed.

Lemma length_slice_from {A : Type} (l : list A) k :
  (0 <= k)%Z -> List.length (slice_from l k) = (List.length l - Z.to_nat k)%nat.
Proof.
  intros Hk. rewrite PySeqFacts.slice_from_nonneg by exact Hk.
  apply length_skipn.
Qed.

(** X16. For periods with [1 <= fast <= slow] and [1 <= signal] and at
    least [slow] prices, the MACD is returned: the MACD line has
    [len(prices) - slow + 1] values, the signal line [signal - 1] fewer (none
    when the MACD line is shorter than [signal]), and the histogram is as long
    as the signal line; so signal and histogram stay empty until there are
    [slow + signal - 1] prices. *)
Theorem macd_lengths (prices : list Q) (fast slow signal : Z) :
  (0 < fast <= slow)%Z -> (0 < signal)%Z -> (slow <= len prices)%Z ->
  exists m,
    calculate_macd prices fast slow signal = Ret m /\
    List.length (macd m) = Z.to_nat (len prices - slow + 1) /\
    List.length (TechnicalIndicators.signal m) =
      Z.to_nat (len prices - slow + 1 - signal + 1) /\
    List.length (histogram m) = List.length (TechnicalIndicators.signal m) /\
    ((len prices < slow + signal - 1)%Z ->
       TechnicalIndicators.signal m = [] /\ histogram m = []).
Proof.
  intros Hfs Hsig Hlen. unfold calculate_macd.
  assert (Hlong : (len prices <? slow)%Z = false) by (apply Z.ltb_ge; lia).
  rewrite Hlong.
  destruct (ema_length prices fast) as (ef & -> & Hef); [lia|].
  cbn [mbind result_bind].
  destruct (ema_length prices slow) as (es & -> & Hes); [lia|].
  cbn [mbind result_bind].
  set (macd_line := zip_sub (slice_from ef (slow - fast)) es).
  assert (Hml : List.length macd_line = Z.to_nat (len prices - slow + 1)).
  { unfold macd_line. rewrite length_zip_sub, length_slice_from by lia.
    rewrite Hef, Hes. lia. }
  destruct (ema_length macd_line signal Hsig) as (sl & -> & Hsl).
  cbn [mbind result_bind].
  assert (Hsl' : List.length sl =
                 Z.to_nat (len prices - slow + 1 - signal + 1)).
  { rewrite Hsl. unfold len in *. rewrite Hml. lia. }
  assert (Hh : List.length (zip_sub (slice_from macd_line (signal - 1)) sl)
               = List.length sl).
  { rewrite length_zip_sub, length_slice_from by lia. rewrite Hml, Hsl'. lia. }
  eexists. split; [reflexivity|].
  cbn [macd TechnicalIndicators.signal histogram].
  split; [exact Hml|]. split; [exact Hsl'|]. split; [exact Hh|].
  intros Hshort.
  assert (Hnil : sl = []).
  { destruct sl; [reflexivity|]. simpl in Hsl'. lia. }
  split; [exact Hnil|].
  destruct (zip_sub (slice_from macd_line (signal - 1)) sl) eqn:Hz;
    [reflexivity|].
  rewrite Hnil in Hh. simpl in Hh. discriminate.
Qed.

(** Eight prices with periods 2, 3 and 2. *)
Lemma macd_lengths_witness :
  exists m,
    calculate_macd [1; 2; 3; 4; 5; 6; 7; 8] 2 3 2 = Ret m /\
    List.length (macd m) = 6%nat /\
    List.length (TechnicalIndicators.signal m) = 5%nat /\
    List.length (histogram m) = 5%nat.
Proof.
  destruct (macd_lengths [1; 2; 3; 4; 5; 6; 7; 8] 2 3 2)
    as (m & Hm & H1 & H2 & H3 & _); try (unfold len; simpl; lia).
  exists m. split; [exact Hm|]. split; [exact H1|]. split; [exact H2|].
  rewrite H3. exact H2.
Defined.

End EmaFacts.

(** * Part VII: properties of the regime detector *)

Module RegimeFacts.

Import PySeq MarketRegimeDetection.
Local Open Scope Q_scope.





Lemma slice_to_no_history (l : list Q) :
  (len l <= 20)%Z -> PyList.slice_to l (-20) = [].
Proof.
  intros H. unfold PyList.slice_to, len in *.
  change (0 <=? -20)%Z with false. cbv iota.
  replace (List.length l - Z.to_nat (- -20))%nat with 0%nat by lia.
  reflexivity.
Qed.

(** X19. With exactly 20 returns, and no more than 20 volumes and
    volatilities, there is no history to compare with: the historical means
    are [nan], every comparison fails, and the detector reports "Transition -
    Mixed Signals" with confidence 0.5 and three [nan] metrics, whatever the
    observations are. *)
Theorem regime_without_history (returns volume volatility : list Q) :
  len returns = 20%Z -> (len volume <= 20)%Z -> (len volatility <= 20)%Z ->
  detect_regime returns volume volatility =
  {| regime := "Transition - Mixed Signals";
     confidence := 0.5;
     metrics := Some {| return_change := None;
                        volatility_change := None;
                        volume_change := None |} |}.
Proof.
  intros Hr Hvol Hvola. unfold detect_regime.
  rewrite Hr. change (20 <? 20)%Z with false. cbv iota. cbn zeta.
  rewrite !slice_to_no_history by lia. cbn [Np.mean].
  destruct (Np.mean (slice_from returns (-20))) as [rr|];
    destruct (Np.mean (slice_from volatility (-20))) as [rv|];
    destruct (Np.mean (slice_from volume (-20))) as [rvol|];
    unfold base_regime, volume_confirmation, change;
    cbn [Nan.gt Nan.lt Nan.mul Nan.lift2 Nan.abs Nan.nonzero option_map
         andb fst snd];
    try destruct (Py.gt 0.02 (Qabs rr)); reflexivity.
Qed.

Lemma regime_without_history_witness :
  detect_regime (repeat 1 20) (repeat 5 20) (repeat 2 20) =
  {| regime := "Transition - Mixed Signals";
     confidence := 0.5;
     metrics := Some {| return_change := None;
                        volatility_change := None;
                        volume_change := None |} |}.
Proof.
  apply (regime_without_history (repeat 1 20) (repeat 5 20) (repeat 2 20));
    unfold len; simpl; lia.
Defined.

End RegimeFacts.

(** * Part VIII: further properties of the period filter and of the
      statements *)

Module FilterFacts.

Local Open Scope Z_scope.

(** X20. A period string other than "annual" and "quarterly" is not
    refused: every concept that has a usable unit sub-series still gives a
    line item, with its description and unit label and with no values in
    it; and no line item of the result has any value. *)
Theorem unknown_period_gives_no_values
    (data : list (string * option Concept.t)) (period : string) (years : Z) :
  period <> "annual" -> period <> "quarterly" ->
  (forall item_name c,
     In (item_name, Some c) data ->
     select_usd_data (default [] (Concept.units c)) <> [] ->
     In (item_name,
         Some {| Line.description :=
                   default item_name (Concept.description c);
                 Line.unit := unit_label (default [] (Concept.units c));
                 Line.values := [] |})
        (_filter_by_period data period years)) /\
  (forall item_name li,
     In (item_name, Some li) (_filter_by_period data period years) ->
     Line.values li = []).
Proof.
  intros Ha Hq.
  assert (Hnone : forall usd_data, normalize_values period years usd_data = []).
  { intros usd_data. unfold normalize_values, sort_and_limit.
    rewrite (filter_forms_other period usd_data Ha Hq).
    cbn [PyList.sort_desc].
    destruct (String.eqb period "annual"); unfold PyList.slice_to;
      destruct (0 <=? _); now rewrite firstn_nil. }
  split.
  - intros item_name c Hin Hsel. unfold _filter_by_period.
    apply in_map_iff. exists (item_name, Some c). split; [|exact Hin].
    f_equal. unfold filter_item.
    assert (Hc : Concept.is_empty c = false).
    { unfold Concept.is_empty.
      destruct (Concept.description c); [reflexivity|].
      destruct (Concept.units c); [reflexivity|].
      exfalso. apply Hsel. reflexivity. }
    rewrite Hc.
    destruct (select_usd_data (default [] (Concept.units c))) as [|v vs];
      [congruence|].
    now rewrite Hnone.
  - intros item_name li Hin.
    apply filter_by_period_In in Hin as (item_data & _ & H). symmetry in H.
    apply filter_item_values in H as (c & usd_data & _ & _ & _ & ->).
    apply Hnone.
Qed.

(** The revenues of the sample company, asked for with a capital letter. *)
Lemma unknown_period_gives_no_values_witness :
  In ("revenues",
      Some {| Line.description := "Revenues"; Line.unit := "USD";
              Line.values := [] |})
     (_filter_by_period Sample.income_items "Annual" 3) /\
  _filter_by_period Sample.income_items "Annual" 3 =
    [("revenues",
      Some {| Line.description := "Revenues"; Line.unit := "USD";
              Line.values := [] |});
     ("gross_profit", None)].
Proof.
  split; [|reflexivity].
  apply (proj1 (unknown_period_gives_no_values Sample.income_items "Annual" 3
                  ltac:(discriminate) ltac:(discriminate))
           "revenues" Sample.revenues); [now left | discriminate].
Defined.

Lemma StronglySorted_app_ge {A : Type} (key : A -> string) (l1 l2 : list A) :
  StronglySorted (PyList.ge key) (l1 ++ l2) ->
  forall a b, In a l1 -> In b l2 -> PyList.ge key a b.
Proof.
  induction l1 as [|x xs IH]; intros Hs a b Ha Hb; [destruct Ha|].
  simpl in Hs. inversion Hs as [|? ? Hxs Hx]; subst.
  destruct Ha as [->|Ha].
  - rewrite List.Forall_forall in Hx. apply Hx, in_or_app. now right.
  - now apply IH.
Qed.

Lemma slice_to_split {A : Type} (l : list A) k :
  exists dropped, l = PyList.slice_to l k ++ dropped.
Proof.
  unfold PyList.slice_to. destruct (0 <=? k).
  - exists (skipn (Z.to_nat k) l). now rewrite firstn_skipn.
  - exists (skipn (List.length l - Z.to_nat (- k)) l). now rewrite firstn_skipn.
Qed.

(** X21. The limit keeps the most recent observations: every observation
    of the period's form family either is among the values of the line item,
    or has a period end no later than that of every value kept.  This holds
    for every horizon. *)
Theorem limit_keeps_most_recent
    (period : string) (years : Z) (usd_data : list Raw.t)
    (raw : Raw.t) (kept : Fmt.t) :
  In raw (filter_forms period usd_data) ->
  In kept (normalize_values period years usd_data) ->
  In (format_value raw) (normalize_values period years usd_data) \/
  String.leb (end_key raw) (end_date_key kept) = true.
Proof.
  intros Hraw Hkept. unfold normalize_values, sort_and_limit in *.
  set (sorted := PyList.sort_desc end_key (filter_forms period usd_data)) in *.
  set (k := if String.eqb period "annual" then years else years * 4).
  assert (Hk : (if String.eqb period "annual"
                then PyList.slice_to sorted years
                else PyList.slice_to sorted (years * 4)) =
               PyList.slice_to sorted k)
    by (unfold k; now destruct (String.eqb period "annual")).
  rewrite Hk in *.
  destruct (slice_to_split sorted k) as [dropped Hsplit].
  assert (Hs : StronglySorted (PyList.ge end_key)
                 (PyList.slice_to sorted k ++ dropped)).
  { rewrite <- Hsplit. apply PyListFacts.sort_desc_StronglySorted. }
  assert (Hin : In raw (PyList.slice_to sorted k ++ dropped)).
  { rewrite <- Hsplit. eapply Permutation_in; [|exact Hraw].
    symmetry. apply PyListFacts.sort_desc_perm. }
  apply in_app_or in Hin as [Hin|Hin].
  - left. now apply in_map.
  - right. apply in_map_iff in Hkept as (rk & <- & Hrk).
    apply (StronglySorted_app_ge end_key _ _ Hs rk raw Hrk Hin).
Qed.

(** The oldest annual observation against the most recent value kept. *)
Lemma limit_keeps_most_recent_witness :
  In (format_value (Sample.obs 100 "2019-12-31" "10-K" "2020-02-20"
                      "0001-20-000001"))
     (normalize_values "annual" 3 Sample.revenue_series) \/
  String.leb "2019-12-31" "2023-12-31" = true.
Proof.
  apply (limit_keeps_most_recent "annual" 3 Sample.revenue_series
           (Sample.obs 100 "2019-12-31" "10-K" "2020-02-20" "0001-20-000001")
           (format_value (Sample.obs 140 "2023-12-31" "10-K" "2024-02-16"
                            "0001-24-000001"))).
  - now left.
  - now left.
Defined.

(** X22. A horizon that is large enough loses nothing: when the number of
    observations of the period's form family is at most [years] (annual) or
    [years * 4] (otherwise), the values are exactly these observations,
    formatted, in the order of the stable sort. *)
Theorem large_horizon_keeps_all
    (period : string) (years : Z) (usd_data : list Raw.t) :
  Z.of_nat (List.length (filter_forms period usd_data)) <=
    (if String.eqb period "annual" then years else years * 4) ->
  normalize_values period years usd_data =
    List.map format_value
      (PyList.sort_desc end_key (filter_forms period usd_data)) /\
  List.length (normalize_values period years usd_data) =
    List.length (filter_forms period usd_data).
Proof.
  intros Hlen. unfold normalize_values, sort_and_limit.
  set (sorted := PyList.sort_desc end_key (filter_forms period usd_data)).
  assert (Hs : List.length sorted = List.length (filter_forms period usd_data))
    by (apply Permutation_length, PyListFacts.sort_desc_perm).
  assert (Hall : forall k, Z.of_nat (List.length sorted) <= k ->
                           PyList.slice_to sorted k = sorted).
  { intros k Hk. rewrite PySeqFacts.slice_to_nonneg by lia.
    apply firstn_all2. lia. }
  destruct (String.eqb period "annual"); rewrite Hall by lia;
    (split; [reflexivity | now rewrite length_map]).
Qed.

Lemma large_horizon_keeps_all_witness :
  List.map Fmt.value (normalize_values "annual" 10 Sample.revenue_series) =
    [Some 140; Some 130; Some 121; Some 110; Some 100]%Q /\
  normalize_values "annual" 10 Sample.revenue_series =
    List.map format_value
      (PyList.sort_desc end_key (filter_forms "annual" Sample.revenue_series)) /\
  List.length (normalize_values "annual" 10 Sample.revenue_series) =
    List.length (filter_forms "annual" Sample.revenue_series).
Proof.
  split; [reflexivity|].
  apply (large_horizon_keeps_all "annual" 10 Sample.revenue_series).
  simpl. lia.
Defined.

(** X23. The unit reported for a line item is the first key of the units
    mapping whenever there is no "USD" key, also when the values were taken
    from a later unit: the label and the data can belong to different
    units. *)
Theorem unit_label_of_first_key
    (item_name period : string) (years : Z) (c : Concept.t)
    (first : string) (first_values : list Raw.t)
    (rest : list (string * list Raw.t)) :
  Concept.units c = Some ((first, first_values) :: rest) ->
  currency_like first = false ->
  PyList.alist_get "USD" rest = None ->
  other_currency_units rest <> [] ->
  exists li,
    filter_item item_name (Some c) period years = Some li /\
    Line.unit li = first /\
    Line.values li = normalize_values period years (other_currency_units rest).
Proof.
  intros Hu Hfirst Husd Hne. unfold filter_item.
  assert (Hc : Concept.is_empty c = false).
  { unfold Concept.is_empty. rewrite Hu. now destruct (Concept.description c). }
  rewrite Hc, Hu. cbn [from_option id].
  assert (Hneq : String.eqb first "USD" = false).
  { destruct (String.eqb_spec first "USD") as [->|]; [discriminate | auto]. }
  assert (Hsel : select_usd_data ((first, first_values) :: rest) =
                 other_currency_units rest).
  { unfold select_usd_data. cbn [PyList.alist_get other_currency_units].
    rewrite Hneq, Husd. cbn [from_option id].
    unfold currency_like in Hfirst. now rewrite Hfirst. }
  rewrite Hsel.
  destruct (other_currency_units rest) as [|v vs] eqn:Ho; [congruence|].
  eexists. split; [reflexivity|]. cbn [Line.unit Line.values].
  split; [|reflexivity].
  unfold unit_label. cbn [PyList.alist_get]. now rewrite Hneq, Husd.
Qed.

(** A concept filed in euros and in shares: the values are the share
    counts, the label is "EUR". *)
Lemma unit_label_of_first_key_witness :
  exists li,
    filter_item "shares_outstanding_basic"
      (Some {| Concept.description := None;
               Concept.units := Some [("EUR", [Sample.amendment]);
                                      ("shares", Sample.revenue_series)] |})
      "annual" 1 = Some li /\
    Line.unit li = "EUR" /\
    Line.values li =
      normalize_values "annual" 1
        (other_currency_units [("shares", Sample.revenue_series)]).
Proof.
  apply (unit_label_of_first_key "shares_outstanding_basic" "annual" 1
           {| Concept.description := None;
              Concept.units := Some [("EUR", [Sample.amendment]);
                                     ("shares", Sample.revenue_series)] |}
           "EUR" [Sample.amendment] [("shares", Sample.revenue_series)]);
    try reflexivity.
  discriminate.
Defined.

End FilterFacts.

Module StatementFacts.

Import Statements.



Lemma filter_item_absent item_name period years :
  filter_item item_name None period years = None.
Proof. reflexivity. Qed.


Lemma filter_item_values_name n1 n2 item_data period years :
  option_map Line.values (filter_item n1 item_data period years) =
  option_map Line.values (filter_item n2 item_data period years) /\
  option_map Line.unit (filter_item n1 item_data period years) =
  option_map Line.unit (filter_item n2 item_data period years).
Proof.
  unfold filter_item. destruct item_data as [c|]; [|auto].
  destruct (Concept.is_empty c); [auto|].
  destruct (select_usd_data _); auto.
Qed.

Lemma line_item_cash_beginning facts cik period years :
  line_item (get_cash_flow_statement facts cik period years) "cash_beginning"
  = Some (filter_item "cash_beginning"
            (_extract_concept (default ∅ (us_gaap facts))
               ["CashAndCashEquivalentsAtCarryingValue"]) period years).
Proof. reflexivity. Qed.

Lemma line_item_cash_ending facts cik period years :
  line_item (get_cash_flow_statement facts cik period years) "cash_ending"
  = Some (filter_item "cash_ending"
            (_extract_concept (default ∅ (us_gaap facts))
               ["CashAndCashEquivalentsAtCarryingValue"]) period years).
Proof. reflexivity. Qed.

(** X25. In every cash flow statement the line items "cash_beginning" and
    "cash_ending" are both present, and they carry the same unit and the same
    values: both are read from the one tag
    CashAndCashEquivalentsAtCarryingValue. *)
Theorem cash_beginning_is_cash_ending
    (facts : Facts) (cik period : string) (years : Z) :
  exists beginning ending,
    line_item (get_cash_flow_statement facts cik period years)
      "cash_beginning" = Some beginning /\
    line_item (get_cash_flow_statement facts cik period years)
      "cash_ending" = Some ending /\
    option_map Line.values beginning = option_map Line.values ending /\
    option_map Line.unit beginning = option_map Line.unit ending.
Proof.
  do 2 eexists.
  split; [apply line_item_cash_beginning|].
  split; [apply line_item_cash_ending|].
  apply filter_item_values_name.
Qed.

End StatementFacts.

(** * Part IX: properties of the peer comparison *)

Module RelativeMetricsFacts.

Import Py PySeq RelativeMetrics.
Local Open Scope Q_scope.

(** What one entry satisfies. *)
Definition entry_ok (company_value : Q) (peer_values : list Q) (e : Relative)
    : Prop :=
  RelativeMetrics.company_value e = company_value /\
  percentile_rank e ==
    inject_Z (below_count peer_values company_value)
      / inject_Z (len peer_values) * 100 /\
  0 <= percentile_rank e /\ percentile_rank e <= 100 /\
  (len peer_values = 1%Z ->
     z_score e = 0 /\ interpretation e = "In line with peers").

Lemma below_count_range peer_values company_value :
  (0 <= below_count peer_values company_value <= len peer_values)%Z.
Proof.
  unfold below_count, len. split; [lia|].
  apply Nat2Z.inj_le, filter_length_le.
Qed.

Lemma relative_entry_ok sqrt company_value peer_values :
  peer_values <> [] ->
  exists e,
    relative_entry sqrt company_value peer_values = Ret e /\
    entry_ok company_value peer_values e.
Proof.
  intros Hne. unfold relative_entry.
  assert (Hn : (0 < len peer_values)%Z).
  { unfold len. destruct peer_values; [congruence | simpl; lia]. }
  pose proof (PySeqFacts.inject_Z_pos _ Hn) as Hn'.
  destruct (below_count_range peer_values company_value) as [Hb0 Hb1].
  rewrite (PyFacts.div_ret
             (inject_Z (below_count peer_values company_value))
             (inject_Z (len peer_values))) by lra.
  cbn [mbind result_bind].
  set (ratio := inject_Z (below_count peer_values company_value)
                / inject_Z (len peer_values)).
  assert (Hr0 : 0 <= ratio).
  { apply Qle_shift_div_l; [lra|]. rewrite Qmult_0_l.
    now apply PySeqFacts.inject_Z_nonneg. }
  assert (Hr1 : ratio <= 1).
  { apply Qle_shift_div_r; [lra|]. rewrite Qmult_1_l. now rewrite <- Zle_Qle. }
  set (std_val := if (1 <? len peer_values)%Z
                  then sqrt (variance peer_values) else 0).
  destruct (gt std_val 0) eqn:Hstd.
  - rewrite PyFacts.div_ret by (apply PyFacts.gt_spec in Hstd; lra).
    cbn [mbind result_bind]. eexists. split; [reflexivity|].
    unfold entry_ok.
    cbn [RelativeMetrics.company_value percentile_rank z_score interpretation].
    split; [reflexivity|]. split; [reflexivity|].
    split; [lra|]. split; [lra|].
    intros H1. exfalso. unfold std_val in Hstd. rewrite H1 in Hstd.
    discriminate Hstd.
  - cbn [mbind result_bind]. eexists. split; [reflexivity|].
    unfold entry_ok.
    cbn [RelativeMetrics.company_value percentile_rank z_score interpretation].
    split; [reflexivity|]. split; [reflexivity|].
    split; [lra|]. split; [lra|]. auto.
Qed.

Lemma relative_metrics_all sqrt company_metrics peer_metrics :
  exists results,
    calculate_relative_metrics sqrt company_metrics peer_metrics
      = Ret results /\
    List.map fst results =
      List.filter (compared peer_metrics) (List.map fst company_metrics) /\
    Forall (fun entry =>
              exists company_value,
                In (fst entry, company_value) company_metrics /\
                entry_ok company_value
                  (peer_values_of (fst entry) peer_metrics) (snd entry))
           results.
Proof.
  induction company_metrics as [|[metric cv] rest IH].
  - exists []. auto.
  - destruct IH as (results & Hres & Hkeys & Hall).
    assert (Hall' : Forall (fun entry =>
              exists company_value,
                In (fst entry, company_value) ((metric, cv) :: rest) /\
                entry_ok company_value
                  (peer_values_of (fst entry) peer_metrics) (snd entry))
              results).
    { revert Hall. apply List.Forall_impl.
      intros entry (v & Hin & Hok). exists v. split; [now right | exact Hok]. }
    cbn [calculate_relative_metrics List.map List.filter fst].
    unfold compared at 1.
    destruct (PyStr.in_list metric ["ticker"; "company_name"]).
    { exists results. auto. }
    cbn [negb andb].
    destruct (peer_values_of metric peer_metrics) as [|v vs] eqn:Hpv.
    { exists results. auto. }
    destruct (relative_entry_ok sqrt cv (v :: vs)) as (e & -> & He);
      [discriminate|].
    cbn [mbind result_bind]. rewrite Hres. cbn [mbind result_bind].
    exists ((metric, e) :: results). split; [reflexivity|]. split.
    + cbn [List.map fst]. now rewrite Hkeys.
    + constructor; [|exact Hall'].
      exists cv. cbn [fst snd]. split; [now left|]. now rewrite Hpv.
Qed.

(** X26. The peer comparison never raises, whatever the peers report: its
    result has one entry for each metric of the company, in the company's
    order, except "ticker" and "company_name" and the metrics that no peer
    reports, which are left out. *)
Theorem relative_metrics_entries (sqrt : Q -> Q)
    (company_metrics : list (string * Q))
    (peer_metrics : list (gmap string Q)) :
  exists results,
    calculate_relative_metrics sqrt company_metrics peer_metrics
      = Ret results /\
    List.map fst results =
      List.filter
        (fun metric =>
           negb (PyStr.in_list metric ["ticker"; "company_name"]) &&
           match peer_values_of metric peer_metrics with
           | [] => false
           | _ => true
           end)
        (List.map fst company_metrics).
Proof.
  destruct (relative_metrics_all sqrt company_metrics peer_metrics)
    as (results & Hres & Hkeys & _).
  exists results. split; [exact Hres | exact Hkeys].
Qed.

(** X27. Every entry of the peer comparison carries the company's own
    value; its percentile rank is 100 times the share of peer values strictly
    below that value, so between 0 and 100; and when a single peer reports
    the metric the z-score is 0 and reads "In line with peers". *)
Theorem relative_metrics_percentile (sqrt : Q -> Q)
    (company_metrics : list (string * Q))
    (peer_metrics : list (gmap string Q))
    (results : list (string * Relative)) (metric : string) (e : Relative) :
  calculate_relative_metrics sqrt company_metrics peer_metrics = Ret results ->
  In (metric, e) results ->
  In (metric, RelativeMetrics.company_value e) company_metrics /\
  percentile_rank e ==
    inject_Z (below_count (peer_values_of metric peer_metrics)
                (RelativeMetrics.company_value e))
      / inject_Z (len (peer_values_of metric peer_metrics)) * 100 /\
  0 <= percentile_rank e /\ percentile_rank e <= 100 /\
  (len (peer_values_of metric peer_metrics) = 1%Z ->
     z_score e = 0 /\ interpretation e = "In line with peers").
Proof.
  intros Hres Hin.
  destruct (relative_metrics_all sqrt company_metrics peer_metrics)
    as (results' & Hres' & _ & Hall).
  rewrite Hres in Hres'. injection Hres' as <-.
  rewrite List.Forall_forall in Hall.
  destruct (Hall (metric, e) Hin) as (cv & Hcv & Hv & Hpr & H0 & H100 & Hone).
  cbn [fst snd] in *. subst cv. auto.
Qed.

(** A company with a P/E of 20 against peers at 10, 30 and (for one peer)
    no P/E: rank 50. *)
Lemma relative_metrics_percentile_witness :
  exists e,
    calculate_relative_metrics (fun x => x)
      [("ticker", 0); ("pe_ratio", 20)]
      [{["pe_ratio" := 10]}; {["pe_ratio" := 30]}; {["roe" := 1]}]
    = Ret [("pe_ratio", e)] /\
    percentile_rank e == 50 /\
    0 <= percentile_rank e /\ percentile_rank e <= 100.
Proof.
  eexists. split; [vm_compute; reflexivity|].
  split; [reflexivity|].
  match goal with
  | |- 0 <= percentile_rank ?e /\ _ =>
      destruct (relative_metrics_percentile (fun x => x)
                  [("ticker", 0); ("pe_ratio", 20)]
                  [{["pe_ratio" := 10]}; {["pe_ratio" := 30]}; {["roe" := 1]}]
                  [("pe_ratio", e)] "pe_ratio" e)
        as (_ & _ & H0 & H100 & _)
  end.
  - vm_compute. reflexivity.
  - now left.
  - split; assumption.
Defined.

End RelativeMetricsFacts.

(** * Part X: properties of the Bollinger bands *)

Module BollingerFacts.

Import PySeq Bollinger.
Local Open Scope Q_scope.

Lemma length_slice {A : Type} (l : list A) a b :
  (0 <= a <= b)%Z -> (b <= len l)%Z ->
  len (slice l a b) = (b - a)%Z.
Proof.
  intros Hab Hb. unfold slice, bound, len in *.
  assert (Ha : (a <? 0)%Z = false) by (apply Z.ltb_ge; lia).
  assert (Hb' : (b <? 0)%Z = false) by (apply Z.ltb_ge; lia).
  rewrite Ha, Hb'. rewrite length_firstn, length_skipn. lia.
Qed.

(** The three bands move together: same length, and at every position the
    middle band lies between the lower and the upper one when neither the
    square root nor the width factor is negative. *)
Definition aligned (sqrt : Q -> Q) (std_dev : Q) (bands : Bands) : Prop :=
  List.length (upper bands) = List.length (middle bands) /\
  List.length (lower bands) = List.length (middle bands) /\
  forall i u m l,
    nth_error (upper bands) i = Some u ->
    nth_error (middle bands) i = Some m ->
    nth_error (lower bands) i = Some l ->
    (forall x, 0 <= sqrt x) -> 0 <= std_dev -> l <= m /\ m <= u.

Lemma bands_loop_aligned sqrt prices period std_dev idx :
  (2 <= period)%Z ->
  Forall (fun i => (period - 1 <= i < len prices)%Z) idx ->
  exists bands,
    bands_loop sqrt prices period std_dev idx = Ok bands /\
    List.length (middle bands) = List.length idx /\
    aligned sqrt std_dev bands.
Proof.
  intros Hp. induction 1 as [|i rest Hi Hrest IH].
  - eexists. split; [reflexivity|]. split; [reflexivity|].
    split; [reflexivity|]. split; [reflexivity|].
    intros [|i] u m l Hu; discriminate.
  - destruct IH as (bands & Hb & Hlen & Hu & Hl & Hpos).
    cbn [bands_loop].
    assert (Hp' : 0 < inject_Z period)
      by (apply PySeqFacts.inject_Z_pos; lia).
    rewrite PyFacts.div_ret by lra. cbn [lift mbind outcome_bind].
    unfold stdev.
    rewrite length_slice by lia.
    assert (Hw : (i + 1 - (i - period + 1) <? 2)%Z = false)
      by (apply Z.ltb_ge; lia).
    rewrite Hw. cbn [mbind outcome_bind]. rewrite Hb.
    cbn [mbind outcome_bind].
    eexists. split; [reflexivity|]. cbn [upper middle lower].
    split; [simpl; now rewrite Hlen|].
    split; [simpl; now rewrite Hu|]. split; [simpl; now rewrite Hl|].
    intros [|j] u m l Hju Hjm Hjl; cbn [nth_error upper middle lower] in *.
    + injection Hju as <-. injection Hjm as <-. injection Hjl as <-.
      intros Hsqrt Hk.
      pose proof (Hsqrt (RelativeMetrics.variance
                           (slice prices (i - period + 1) (i + 1)))) as Hs.
      split; nra.
    + eapply Hpos; eauto.
Qed.

(** X28. For a period of at least 2 and at least [period] prices the
    Bollinger bands are returned, whatever the square root inside
    [statistics.stdev] yields: three lists of [len(prices) - period + 1]
    values each; and when the square root and the width factor are not
    negative, lower <= middle <= upper at every position. *)
Theorem bollinger_bands_aligned (sqrt : Q -> Q)
    (prices : list Q) (period : Z) (std_dev : Q) :
  (2 <= period <= len prices)%Z ->
  exists bands,
    calculate_bollinger_bands sqrt prices period std_dev = Ok bands /\
    List.length (middle bands) = Z.to_nat (len prices - period + 1) /\
    List.length (upper bands) = List.length (middle bands) /\
    List.length (lower bands) = List.length (middle bands) /\
    forall i u m l,
      nth_error (upper bands) i = Some u ->
      nth_error (middle bands) i = Some m ->
      nth_error (lower bands) i = Some l ->
      (forall x, 0 <= sqrt x) -> 0 <= std_dev -> l <= m /\ m <= u.
Proof.
  intros Hp. unfold calculate_bollinger_bands.
  assert (Hlong : (len prices <? period)%Z = false) by (apply Z.ltb_ge; lia).
  rewrite Hlong.
  destruct (bands_loop_aligned sqrt prices period std_dev
              (range (period - 1) (len prices))) as (bands & Hb & Hlen & Ha).
  - lia.
  - apply List.Forall_forall. intros i Hi. now apply PySeqFacts.range_In in Hi.
  - exists bands. split; [exact Hb|]. split.
    + rewrite Hlen, PySeqFacts.length_range. lia.
    + exact Ha.
Qed.

(** Four prices, period 2, width factor 2, the identity for the square
    root. *)
Lemma bollinger_bands_aligned_witness :
  exists bands,
    calculate_bollinger_bands (fun x => x) [1; 3; 2; 6] 2 2 = Ok bands /\
    List.map Qred (middle bands) = [2; 5 # 2; 4] /\
    List.length (upper bands) = List.length (middle bands) /\
    List.length (lower bands) = List.length (middle bands).
Proof.
  destruct (bollinger_bands_aligned (fun x => x) [1; 3; 2; 6] 2 2)
    as (bands & Hb & _ & Hu & Hl & _); [unfold len; simpl; lia|].
  exists bands. split; [exact Hb|]. split; [|auto].
  vm_compute in Hb. injection Hb as <-. reflexivity.
Defined.

(** X29. The Bollinger bands outside their working range: with fewer
    than [period] prices the three bands are empty; with a period of 1 and at
    least one price [statistics.stdev] is given a single price and raises
    [StatisticsError]; with a period of 0 the empty first window is averaged
    over 0 and [ZeroDivisionError] is raised, for every price series. *)
Theorem bollinger_edge_cases (sqrt : Q -> Q)
    (prices : list Q) (period : Z) (std_dev : Q) :
  ((len prices < period)%Z ->
     calculate_bollinger_bands sqrt prices period std_dev =
     Ok {| upper := []; middle := []; lower := [] |}) /\
  (period = 1%Z -> prices <> [] ->
     calculate_bollinger_bands sqrt prices period std_dev =
     Fail StatisticsError) /\
  (period = 0%Z ->
     calculate_bollinger_bands sqrt prices period std_dev =
     Fail (Builtin Py.ZeroDivisionError)).
Proof.
  unfold calculate_bollinger_bands. split; [|split].
  - intros H. apply Z.ltb_lt in H. now rewrite H.
  - intros -> Hne.
    destruct prices as [|p ps]; [congruence|].
    assert (H : (len (p :: ps) <? 1)%Z = false)
      by (apply Z.ltb_ge; unfold len; simpl; lia).
    rewrite H. unfold range.
    assert (Hn : Z.to_nat (len (p :: ps) - (1 - 1)) =
                 S (List.length ps)) by (unfold len; simpl; lia).
    rewrite Hn. cbn [seq List.map bands_loop].
    rewrite PyFacts.div_ret by (intros E; discriminate E).
    cbn [lift mbind outcome_bind]. unfold stdev.
    assert (Hw : (len (slice (p :: ps) (1 - 1 + Z.of_nat 0 - 1 + 1)
                          (1 - 1 + Z.of_nat 0 + 1)) <? 2)%Z = true).
    { rewrite length_slice; unfold len; simpl; lia. }
    rewrite Hw. reflexivity.
  - intros ->.
    assert (H : (len prices <? 0)%Z = false)
      by (apply Z.ltb_ge; unfold len; lia).
    rewrite H. unfold range.
    assert (Hn : Z.to_nat (len prices - (0 - 1)) =
                 S (List.length prices)) by (unfold len; lia).
    rewrite Hn. cbn [seq List.map bands_loop].
    rewrite PyFacts.div_raise by reflexivity. reflexivity.
Qed.

End BollingerFacts.
